(** * getMeraki.py: the rate-limit-aware request executor and the status classifier

    A shallow embedding of [invoke_meraki] and [classify_status] of
    [getMeraki.py].

    Python [str] values are modelled by [string].  The builtins that
    [invoke_meraki] applies to a [str], [s.upper()] and [int(s)], are
    parameters of its model ([builtins]): what is proved holds for Python's
    own functions.  [PyStr] gives them at the inputs of the examples: its
    case mappings act on the ASCII letters, and its [int] reads a string as
    the code points below 256, which is what the value of a response header
    is.  Python integers are [Z]; the attempt counter, which starts at 0 and
    is only ever incremented, is a [nat].

    The effects of [invoke_meraki] (network calls through [requests], writes to
    [stderr], [time.sleep]) are recorded in an event trace that is threaded
    through a state-and-exception monad; the transport is an oracle that
    answers the n-th network call. *)

From Stdlib Require Import ZArith Ascii String List Lia Bool DecimalString.
From stdpp Require Import base option gmap strings.

Import ListNotations.
Local Open Scope string_scope.
Local Open Scope Z_scope.

(** ** Python strings *)

Module PyStr.

Definition is_lower_letter (c : ascii) : bool :=
  let n := nat_of_ascii c in (97 <=? n)%nat && (n <=? 122)%nat.

Definition is_upper_letter (c : ascii) : bool :=
  let n := nat_of_ascii c in (65 <=? n)%nat && (n <=? 90)%nat.

Definition upper_char (c : ascii) : ascii :=
  if is_lower_letter c then ascii_of_nat (nat_of_ascii c - 32) else c.

Definition lower_char (c : ascii) : ascii :=
  if is_upper_letter c then ascii_of_nat (nat_of_ascii c + 32) else c.

(** [s.upper()] for an ASCII [s]: the ASCII letters are mapped, every
    other character is left as it is. *)
Fixpoint upper (s : string) : string :=
  match s with
  | EmptyString => EmptyString
  | String c s' => String (upper_char c) (upper s')
  end.

(** [s.lower()], likewise. *)
Fixpoint lower (s : string) : string :=
  match s with
  | EmptyString => EmptyString
  | String c s' => String (lower_char c) (lower s')
  end.

(** Truth value of a string: only the empty string is falsy. *)
Definition truthy (s : string) : bool :=
  match s with
  | EmptyString => false
  | String _ _ => true
  end.

(** [str(n)] for an integer [n]. *)
Definition of_int (n : Z) : string := NilZero.string_of_int (Z.to_int n).

(** *** [int(s)]

    The decimal syntax accepted by [int] on a string of code points below
    256: optional surrounding white space, an optional sign, then digits,
    where single underscores may separate digits, and at most 4300 digits in
    all.  [None] stands for the [ValueError] that [int] raises. *)

(** The white space that [int] strips: tab to carriage return, the space,
    and, above 127, the next-line and no-break-space characters. *)
Definition is_space (c : ascii) : bool :=
  let n := nat_of_ascii c in
  ((9 <=? n)%nat && (n <=? 13)%nat) || (n =? 32)%nat
  || (n =? 133)%nat || (n =? 160)%nat.

Definition digit_of (c : ascii) : option Z :=
  let n := nat_of_ascii c in
  if (48 <=? n)%nat && (n <=? 57)%nat then Some (Z.of_nat (n - 48)) else None.

Fixpoint lstrip (s : string) : string :=
  match s with
  | String c s' => if is_space c then lstrip s' else s
  | EmptyString => EmptyString
  end.

(** Drops trailing white space: a character is kept when it is not a space
    or when something is kept after it. *)
Fixpoint rstrip (s : string) : string :=
  match s with
  | EmptyString => EmptyString
  | String c s' =>
      match rstrip s' with
      | EmptyString => if is_space c then EmptyString else String c EmptyString
      | r => String c r
      end
  end.

Definition strip (s : string) : string := rstrip (lstrip s).

(** [digits acc after_digit s]: reads the digits of [s] into [acc];
    [after_digit] tells whether the previous character was a digit, which is
    what an underscore and the end of the literal both need. *)
Fixpoint digits (acc : Z) (after_digit : bool) (s : string) : option Z :=
  match s with
  | EmptyString => if after_digit then Some acc else None
  | String c s' =>
      match digit_of c with
      | Some d => digits (10 * acc + d) true s'
      | None =>
          if Ascii.eqb c "_"%char && after_digit then digits acc false s'
          else None
      end
  end.

(** The number of digits of a literal. *)
Fixpoint count_digits (s : string) : nat :=
  match s with
  | EmptyString => O
  | String c s' =>
      match digit_of c with
      | Some _ => S (count_digits s')
      | None => count_digits s'
      end
  end.

(** The default of [sys.get_int_max_str_digits()]. *)
Definition max_str_digits : nat := 4300.

Definition int (s : string) : option Z :=
  let body := strip s in
  if (max_str_digits <? count_digits body)%nat then None
  else
    match body with
    | String "-" s' => option_map Z.opp (digits 0 false s')
    | String "+" s' => digits 0 false s'
    | s' => digits 0 false s'
    end.

End PyStr.

(** ** [classify_status] *)

Definition classify_status (raw_status : string) : string :=
  let raw_status := PyStr.lower raw_status in
  if String.eqb raw_status "active" then "ATIVA"
  else if String.eqb raw_status "ready" then "PRONTA"
  else "FALHA".

(** ** The executor's environment *)

(** What the executor needs of a Python value: its truth value, [str] of it
    (as an f-string formats it) and [json.dumps] of it, which is [None] when
    [json.dumps] raises its [TypeError] for a value that is not
    serializable. *)
Class PyValue (J : Type) := {
  py_truthy : J -> bool;
  py_str : J -> string;
  json_dumps : J -> option string
}.

(** The builtins that the executor applies to a [str]: [s.upper()], and
    [int(s)] with [None] for its [ValueError]. *)
Record builtins := {
  str_upper : string -> string;
  str_int : string -> option Z
}.

(** The functions of [PyStr] as builtins. *)
Definition sample_builtins : builtins :=
  {| str_upper := PyStr.upper; str_int := PyStr.int |}.

Inductive verb := GET | POST | PUT | DELETE.

(** One call of [requests.get], [requests.post], [requests.put] or
    [requests.delete]. *)
Record request := {
  rq_verb : verb;
  rq_url : string;
  rq_headers : list (string * string);
  rq_data : option string
}.

(** Exceptions.  [HTTPError] and [JSONDecodeError] are the classes of
    [requests.exceptions]; both derive from [RequestException], and
    [requests.exceptions.JSONDecodeError] derives from [json.JSONDecodeError]
    too.  [RequestException] stands for the remaining ones (connection
    errors, timeouts, ...).  [PyException] is the plain [Exception].
    [OverflowError] is what [time.sleep] raises for a length that does not
    fit its clock, [PyTypeError] the [TypeError] of [json.dumps]. *)
Inductive value_error :=
| UnsupportedMethod (msg : string)
| InvalidLiteral (s : string)
| NegativeSleep (secs : Z).

Inductive exn :=
| ValueError (cause : value_error)
| HTTPError (msg : string)
| RequestException (msg : string)
| JSONDecodeError (msg : string)
| PyException (msg : string)
| OverflowError (secs : Z)
| PyTypeError.

(** [Some (str e)] when [e] is an instance of
    [requests.exceptions.RequestException]. *)
Definition as_RequestException (e : exn) : option string :=
  match e with
  | HTTPError msg | RequestException msg | JSONDecodeError msg => Some msg
  | ValueError _ | PyException _ | OverflowError _ | PyTypeError => None
  end.


Definition is_json_JSONDecodeError (e : exn) : bool :=
  match e with
  | JSONDecodeError _ => true
  | _ => false
  end.

Inductive event :=
| Sent (rq : request)
| Printed (line : string)
| Slept (secs : Z).

Definition is_sent (ev : event) : bool :=
  match ev with
  | Sent _ => true
  | _ => false
  end.

(** Number of network calls in a trace. *)
Definition calls (tr : list event) : nat := length (filter is_sent tr).

Inductive result (A : Type) :=
| Ok (a : A)
| Raised (e : exn).

Arguments Ok {A} a.
Arguments Raised {A} e.

(** Computations: the trace so far goes in, a value or an exception comes out
    with the extended trace. *)
Definition M (A : Type) : Type := list event -> result A * list event.

Definition ret {A} (a : A) : M A := fun tr => (Ok a, tr).

Definition raise {A} (e : exn) : M A := fun tr => (Raised e, tr).

Definition bind {A B} (m : M A) (k : A -> M B) : M B := fun tr =>
  match m tr with
  | (Ok a, tr') => k a tr'
  | (Raised e, tr') => (Raised e, tr')
  end.

(** A value or an exception that is already at hand. *)
Definition lift {A} (r : result A) : M A := fun tr => (r, tr).

Definition emit (ev : event) : M unit := fun tr => (Ok tt, (tr ++ [ev])%list).

(** [try: body except ...: handler]: [handler e] is [None] when no [except]
    clause matches [e]. *)
Definition try_except {A} (body : M A) (handler : exn -> option (M A)) : M A :=
  fun tr =>
    match body tr with
    | (Ok a, tr') => (Ok a, tr')
    | (Raised e, tr') =>
        match handler e with
        | Some h => h tr'
        | None => (Raised e, tr')
        end
    end.

Declare Scope py_scope.
Delimit Scope py_scope with py.
Notation "'let*' x ':=' m 'in' k" := (bind m (fun x => k))
  (at level 10, x name, m at level 100, k at level 200) : py_scope.

(** The line feed of the f-strings. *)
Definition nl : string := String (ascii_of_nat 10) EmptyString.

Definition BASE_URL : string := "https://api.meraki.com/api/v1".

Definition max_retries : nat := 5.

(** The longest sleep, in seconds, that [time.sleep] accepts: its clock
    counts nanoseconds in 64 bits. *)
Definition max_sleep : Z := 9223372036.

Section Executor.

Context {J : Type} `{PyValue J}.

(** Python's [s.upper()] and [int(s)]. *)
Variable py : builtins.

(** The configured credential; nothing below depends on its value. *)
Variable API_KEY : string.

Definition HEADERS : list (string * string) :=
  [ ("X-Cisco-Meraki-API-Key", API_KEY);
    ("Accept", "application/json");
    ("Content-Type", "application/json") ].

(** What [response.json()] does: the decoded value, or a
    [JSONDecodeError] with its message. *)
Inductive json_result :=
| Decoded (j : J)
| Undecodable (msg : string).

(** A [requests.Response] as the executor observes it.  [headers] is the
    case-insensitive dictionary of [requests], keyed by lower-cased names. *)
Record response := {
  status_code : Z;
  headers : gmap string string;
  content : string;
  text : string;
  json : json_result
}.

(** [response.headers.get(name)] *)
Definition headers_get (r : response) (name : string) : option string :=
  headers r !! PyStr.lower name.

(** The answer of the transport to one call: a response, or a transport
    failure (a [RequestException]) with its message. *)
Inductive reply :=
| Answered (r : response)
| Failed (msg : string).

(** The transport answers the call number [n] (counted from 0). *)
Variable net : nat -> request -> reply.

Definition perform (rq : request) : M response := fun tr =>
  match net (calls tr) rq with
  | Answered r => (Ok r, (tr ++ [Sent rq])%list)
  | Failed msg => (Raised (RequestException msg), (tr ++ [Sent rq])%list)
  end.

Definition requests_get (url : string) (hdrs : list (string * string)) : M response :=
  perform {| rq_verb := GET; rq_url := url; rq_headers := hdrs; rq_data := None |}.

Definition requests_post (url : string) (hdrs : list (string * string))
    (data : option string) : M response :=
  perform {| rq_verb := POST; rq_url := url; rq_headers := hdrs; rq_data := data |}.

Definition requests_put (url : string) (hdrs : list (string * string))
    (data : option string) : M response :=
  perform {| rq_verb := PUT; rq_url := url; rq_headers := hdrs; rq_data := data |}.

Definition requests_delete (url : string) (hdrs : list (string * string)) : M response :=
  perform {| rq_verb := DELETE; rq_url := url; rq_headers := hdrs; rq_data := None |}.

Definition response_json (r : response) : M J :=
  match json r with
  | Decoded j => ret j
  | Undecodable msg => raise (JSONDecodeError msg)
  end.

(** [int(retry_after)] *)
Definition py_int (s : string) : M Z :=
  match str_int py s with
  | Some n => ret n
  | None => raise (ValueError (InvalidLiteral s))
  end.

(** [time.sleep(secs)]: a length that does not fit the clock is an
    [OverflowError], a negative one a [ValueError]. *)
Definition time_sleep (secs : Z) : M unit :=
  if (secs <? - max_sleep) || (max_sleep <? secs) then raise (OverflowError secs)
  else if secs <? 0 then raise (ValueError (NegativeSleep secs))
  else emit (Slept secs).

(** [print(line, file=sys.stderr)] *)
Definition print_stderr (line : string) : M unit := emit (Printed line).

(** [json.dumps(data) if data else None] *)
Definition dumps_if (data : option J) : result (option string) :=
  match data with
  | Some d =>
      if py_truthy d then
        match json_dumps d with
        | Some body => Ok (Some body)
        | None => Raised PyTypeError
        end
      else Ok None
  | None => Ok None
  end.

(** The seconds to sleep on a rate-limited response, when the code gets
    that far: the [Retry-After] header read by [int] as a number of seconds
    that [time.sleep] accepts, or 2 when the header is missing or empty. *)
Definition backoff_of (r : response) (secs : Z) : Prop :=
  (headers_get r "Retry-After" = None /\ secs = 2)
  \/ (headers_get r "Retry-After" = Some "" /\ secs = 2)
  \/ (exists s, headers_get r "Retry-After" = Some s /\ s <> ""
                /\ str_int py s = Some secs /\ 0 <= secs <= max_sleep).

(** What one iteration of [while True] ends in. *)
Inductive flow :=
| Continue
| Return (v : option J).

(** The [if]/[elif] chain on [method.upper()]. *)
Definition send (method url : string) (data : option J) : M response :=
  if String.eqb (str_upper py method) "GET" then
    requests_get url HEADERS
  else if String.eqb (str_upper py method) "POST" then
    (let* body := lift (dumps_if data) in requests_post url HEADERS body)%py
  else if String.eqb (str_upper py method) "PUT" then
    (let* body := lift (dumps_if data) in requests_put url HEADERS body)%py
  else if String.eqb (str_upper py method) "DELETE" then
    requests_delete url HEADERS
  else
    raise (ValueError (UnsupportedMethod ("Unsupported method: " ++ method))).

(** [error_content]: the decoded body, or [response.text] when
    [json.JSONDecodeError] is caught. *)
Definition error_content (r : response) : M (J + string) :=
  try_except
    (let* j := response_json r in ret (inl j))%py
    (fun e => if is_json_JSONDecodeError e then Some (ret (inr (text r))) else None).

(** [str] of [error_content], as the f-string formats it. *)
Definition fmt_content (c : J + string) : string :=
  match c with
  | inl j => py_str j
  | inr s => s
  end.

(** The body of the [try] block, given the incremented [attempt]. *)
Definition try_body (method url : string) (data : option J) (attempt : nat) : M flow :=
  (let* response := send method url data in
   let status_code := status_code response in
   if (status_code =? 429) && (attempt <? max_retries)%nat then
     let retry_after := headers_get response "Retry-After" in
     let* sleep_time := match retry_after with
                        | Some s => if PyStr.truthy s then py_int s else ret 2
                        | None => ret 2
                        end in
     let* _ := print_stderr ("Rate limit hit (429). Retrying in "
                             ++ PyStr.of_int sleep_time ++ " seconds...") in
     let* _ := time_sleep sleep_time in
     ret Continue
   else if (200 <=? status_code) && (status_code <? 300) then
     if PyStr.truthy (content response) then
       let* j := response_json response in ret (Return (Some j))
     else ret (Return None)
   else
     let* c := error_content response in
     raise (HTTPError ("HTTP " ++ PyStr.of_int status_code ++ " at " ++ url
                       ++ nl ++ fmt_content c)))%py.

(** The call that the chain of [send] makes for [method], if it makes one
    (it makes none when the method is refused and when [json.dumps]
    raises); the results below are stated with it. *)
Definition request_of (method url : string) (data : option J) : option request :=
  if String.eqb (str_upper py method) "GET" then
    Some {| rq_verb := GET; rq_url := url; rq_headers := HEADERS; rq_data := None |}
  else if String.eqb (str_upper py method) "POST" then
    match dumps_if data with
    | Ok body => Some {| rq_verb := POST; rq_url := url; rq_headers := HEADERS;
                         rq_data := body |}
    | Raised _ => None
    end
  else if String.eqb (str_upper py method) "PUT" then
    match dumps_if data with
    | Ok body => Some {| rq_verb := PUT; rq_url := url; rq_headers := HEADERS;
                         rq_data := body |}
    | Raised _ => None
    end
  else if String.eqb (str_upper py method) "DELETE" then
    Some {| rq_verb := DELETE; rq_url := url; rq_headers := HEADERS; rq_data := None |}
  else None.

(** The exception that [send] raises when it makes no call. *)
Definition send_failure (method : string) (data : option J) : exn :=
  match dumps_if data with
  | Raised e =>
      if String.eqb (str_upper py method) "POST"
         || String.eqb (str_upper py method) "PUT"
      then e
      else ValueError (UnsupportedMethod ("Unsupported method: " ++ method))
  | Ok _ => ValueError (UnsupportedMethod ("Unsupported method: " ++ method))
  end.

(** The [except requests.exceptions.RequestException as e] clause. *)
Definition except_RequestException (url : string) (e : exn) : option (M flow) :=
  match as_RequestException e with
  | Some msg =>
      Some (raise (PyException ("An error occurred during the request to "
                                ++ url ++ ": " ++ msg)))
  | None => None
  end.

(** One iteration of the loop, after [attempt += 1]. *)
Definition iteration (method url : string) (data : option J) (attempt : nat) : M flow :=
  try_except (try_body method url data attempt) (except_RequestException url).

(** The [while True] loop; [None] when the fuel runs out. *)
Fixpoint retry_loop (fuel : nat) (method url : string) (data : option J)
    (attempt : nat) (tr : list event) : option (result (option J) * list event) :=
  match fuel with
  | O => None
  | S fuel' =>
      let attempt := S attempt in
      match iteration method url data attempt tr with
      | (Ok Continue, tr') => retry_loop fuel' method url data attempt tr'
      | (Ok (Return v), tr') => Some (Ok v, tr')
      | (Raised e, tr') => Some (Raised e, tr')
      end
  end.

Definition invoke_meraki_fuel (fuel : nat) (method uri : string) (data : option J) :
    option (result (option J) * list event) :=
  retry_loop fuel method (BASE_URL ++ uri) data 0 [].

(** [invoke_meraki(method, uri, data)]: five rounds of fuel are always
    enough (see [retry_loop_total]). *)
Definition invoke_meraki (method uri : string) (data : option J) :
    option (result (option J) * list event) :=
  invoke_meraki_fuel max_retries method uri data.

End Executor.

(** ** Sample values and transports

    A small universe of Python values (strings without quotes or escapes),
    and transports that replay a script; they instantiate the development
    at concrete inputs. *)

Module Sample.

#[local] Set Warnings "-register-all".

Inductive pyval :=
| VNone
| VInt (n : Z)
| VStr (s : string)
| VList (l : list pyval)
| VDict (items : list (string * pyval)).

(** [repr(v)] *)
Fixpoint repr (v : pyval) : string :=
  match v with
  | VNone => "None"
  | VInt n => PyStr.of_int n
  | VStr s => "'" ++ s ++ "'"
  | VList l =>
      "[" ++ (fix go (l : list pyval) : string :=
                match l with
                | [] => ""
                | x :: r =>
                    match r with
                    | [] => repr x
                    | _ => repr x ++ ", " ++ go r
                    end
                end) l ++ "]"
  | VDict items =>
      "{" ++ (fix go (l : list (string * pyval)) : string :=
                match l with
                | [] => ""
                | (k, x) :: r =>
                    match r with
                    | [] => "'" ++ k ++ "': " ++ repr x
                    | _ => "'" ++ k ++ "': " ++ repr x ++ ", " ++ go r
                    end
                end) items ++ "}"
  end.

(** [str(v)] *)
Definition str (v : pyval) : string :=
  match v with
  | VStr s => s
  | _ => repr v
  end.

Definition dq : string := String (ascii_of_nat 34) EmptyString.

(** [json.dumps(v)] *)
Fixpoint dumps (v : pyval) : string :=
  match v with
  | VNone => "null"
  | VInt n => PyStr.of_int n
  | VStr s => dq ++ s ++ dq
  | VList l =>
      "[" ++ (fix go (l : list pyval) : string :=
                match l with
                | [] => ""
                | x :: r =>
                    match r with
                    | [] => dumps x
                    | _ => dumps x ++ ", " ++ go r
                    end
                end) l ++ "]"
  | VDict items =>
      "{" ++ (fix go (l : list (string * pyval)) : string :=
                match l with
                | [] => ""
                | (k, x) :: r =>
                    match r with
                    | [] => dq ++ k ++ dq ++ ": " ++ dumps x
                    | _ => dq ++ k ++ dq ++ ": " ++ dumps x ++ ", " ++ go r
                    end
                end) items ++ "}"
  end.

Definition truthy (v : pyval) : bool :=
  match v with
  | VNone => false
  | VInt n => negb (n =? 0)
  | VStr s => PyStr.truthy s
  | VList l => match l with [] => false | _ => true end
  | VDict items => match items with [] => false | _ => true end
  end.

#[export] Instance pyval_value : PyValue pyval :=
  {| py_truthy := truthy; py_str := str; json_dumps := fun v => Some (dumps v) |}.

(** A response with the given status, [Retry-After] header and body; the
    body decodes to [j] when one is given. *)
Definition mk_response (status : Z) (retry_after : option string)
    (body : string) (j : option pyval) : response :=
  {| status_code := status;
     headers := match retry_after with
                | Some v => {[ "retry-after" := v ]}
                | None => ∅
                end;
     content := body;
     text := body;
     json := match j with
             | Some v => Decoded v
             | None => Undecodable "Expecting value: line 1 column 1 (char 0)"
             end |}.

(** The transport that replays [script] and then keeps answering [last]. *)
Definition scripted (script : list (@reply pyval)) (last : @reply pyval) :
    nat -> request -> @reply pyval :=
  fun n _ => nth n script last.

Definition not_found_body : string :=
  "{" ++ dq ++ "errors" ++ dq ++ ":[" ++ dq ++ "not found" ++ dq ++ "]}".

Definition not_found_json : pyval := VDict [("errors", VList [VStr "not found"])].

Definition uplinks_uri : string := "/organizations/838074/uplinks/statuses?perPage=1000".

Definition uplinks_url : string := BASE_URL ++ uplinks_uri.

(** The call that [invoke_meraki("GET", uplinks_uri)] makes, with the key
    [k]. *)
Definition get_uplinks : request :=
  {| rq_verb := GET; rq_url := uplinks_url; rq_headers := HEADERS "k";
     rq_data := None |}.

(** A 429 answer with the given [Retry-After] header. *)
Definition limited (retry_after : option string) : @response pyval :=
  mk_response 429 retry_after "" None.

(** A 200 answer with an empty JSON array. *)
Definition ok_empty_list : @response pyval :=
  mk_response 200 None "[]" (Some (VList [])).

Definition http_date : string := "Wed, 21 Oct 2015 07:28:00 GMT".

(** A number of seconds beyond what [time.sleep] accepts. *)
Definition too_long : string := "99999999999999999999".

(** The call that [invoke_meraki("delete", uplinks_uri)] makes. *)
Definition delete_uplinks : request :=
  {| rq_verb := DELETE; rq_url := uplinks_url; rq_headers := HEADERS "k";
     rq_data := None |}.

(** A 204 answer: no body. *)
Definition no_content : @response pyval := mk_response 204 None "" None.

End Sample.

(** ** Traces of the executor *)

(** The line written to [stderr] before a pause of [secs] seconds. *)
Definition pause_line (secs : Z) : string :=
  "Rate limit hit (429). Retrying in " ++ PyStr.of_int secs ++ " seconds...".

(** The events of a round that ends in [continue]: the call, the
    announcement and the pause. *)
Definition pause_round (rq : request) (secs : Z) : list event :=
  [Sent rq; Printed (pause_line secs); Slept secs].

(** The requests sent in a trace, in order. *)
Definition sent_requests (tr : list event) : list request :=
  omap (fun ev => match ev with Sent rq => Some rq | _ => None end) tr.

(** ** [format_table]

    Here a string is read as a sequence of 8-bit characters, and [len] is
    [String.length]. *)

(** [sep.join(parts)] *)
Fixpoint join (sep : string) (parts : list string) : string :=
  match parts with
  | [] => ""
  | p :: rest =>
      match rest with
      | [] => p
      | _ => p ++ sep ++ join sep rest
      end
  end.

(** [s * n] *)
Fixpoint str_times (s : string) (n : nat) : string :=
  match n with
  | O => ""
  | S n' => s ++ str_times s n'
  end.

(** [s.ljust(width)]: [s] itself when it is [width] long or longer. *)
Definition ljust (s : string) (width : nat) : string :=
  s ++ str_times " " (width - String.length s).

(** The columns of the table: the key of a row and the header shown. *)
Definition columns : list (string * string) :=
  [ ("serial", "SERIAL");
    ("interface", "INTERFACE");
    ("statusInternet", "STATUSINTERNET");
    ("statusRaw", "STATUSRAW");
    ("publicIp", "PUBLICIP");
    ("ipLocal", "IPLOCAL");
    ("lastReportedAt", "LASTREPORTEDAT") ].

(** [{col[0]: len(col[1]) for col in columns}] *)
Definition header_widths : gmap string nat :=
  foldl (fun w col => <[col.1 := String.length col.2]> w) ∅ columns.

Section Table.

Context {J : Type} `{PyValue J}.

(** [str(row.get(key, ''))] *)
Definition cell (row : gmap string J) (key : string) : string :=
  match row !! key with
  | Some v => py_str v
  | None => ""
  end.

(** [col_widths[key] = max(col_widths[key], len(value))]; the keys read
    are those of [columns], which the dictionary always holds. *)
Definition widen (row : gmap string J) (w : gmap string nat)
    (col : string * string) : gmap string nat :=
  <[col.1 := Nat.max (w !!! col.1) (String.length (cell row col.1))]> w.

(** The two nested loops over the rows and the columns. *)
Definition col_widths (data_list : list (gmap string J)) : gmap string nat :=
  foldl (fun w row => foldl (widen row) w columns) header_widths data_list.

Definition header_line (w : gmap string nat) : string :=
  join "  " (map (fun col => ljust col.2 (w !!! col.1)) columns).

Definition separator_line (w : gmap string nat) : string :=
  join "  " (map (fun col => str_times "-" (w !!! col.1)) columns).

Definition data_line (w : gmap string nat) (row : gmap string J) : string :=
  join "  " (map (fun col => ljust (cell row col.1) (w !!! col.1)) columns).

(** [[header_line, separator_line] + data_lines] *)
Definition table_lines (data_list : list (gmap string J)) : list string :=
  let w := col_widths data_list in
  header_line w :: separator_line w :: map (data_line w) data_list.

Definition format_table (data_list : list (gmap string J)) : string :=
  match data_list with
  | [] => ""
  | _ => join nl (table_lines data_list)
  end.

End Table.

(** ** The script: from the devices to the rows

    The values are those of [Sample.pyval]; every operation of this part
    treats a JSON boolean or float as it treats an integer (no [get], no
    [lower], not iterable).  An exception that the script does not catch
    ends it: the rows collected so far are lost. *)

Module Script.

Import Sample.

Definition ORG_ID : Z := 838074.

Definition NETWORK_ID : string := "N_635570497412743556".

Inductive script_error :=
| AttributeError
| TypeError.

(** [d.get(key)] on the items of a dictionary. *)
Fixpoint dict_get (items : list (string * pyval)) (key : string) : option pyval :=
  match items with
  | [] => None
  | (k, v) :: rest => if String.eqb k key then Some v else dict_get rest key
  end.

(** [d.get(key, dflt)] *)
Definition dict_get_or (items : list (string * pyval)) (key : string)
    (dflt : pyval) : pyval :=
  match dict_get items key with
  | Some v => v
  | None => dflt
  end.

(** The characters of a string, each as a string. *)
Fixpoint chars (s : string) : list pyval :=
  match s with
  | EmptyString => []
  | String c s' => VStr (String c EmptyString) :: chars s'
  end.

(** What [for x in v] iterates over; [None] and numbers are not iterable. *)
Definition iterate (v : pyval) : script_error + list pyval :=
  match v with
  | VList l => inr l
  | VDict items => inr (map (fun kv => VStr kv.1) items)
  | VStr s => inr (chars s)
  | VNone | VInt _ => inl TypeError
  end.

(** The loop [for x in l: rows.append(...)] with a body that may raise. *)
Fixpoint collect {A : Type} (body : A -> script_error + list (gmap string pyval))
    (l : list A) : script_error + list (gmap string pyval) :=
  match l with
  | [] => inr []
  | x :: rest =>
      match body x with
      | inl e => inl e
      | inr rows =>
          match collect body rest with
          | inl e => inl e
          | inr more => inr (rows ++ more)%list
          end
      end
  end.

(** [device.get(key)]: [None] when the key is missing. *)
Definition get_or_none (items : list (string * pyval)) (key : string) : pyval :=
  dict_get_or items key VNone.

(** The dictionary appended for an uplink on [wan1] or [wan2]. *)
Definition make_row (device uplink : list (string * pyval))
    (interface raw_status : string) : gmap string pyval :=
  list_to_map
    [ ("organizationId", VInt ORG_ID);
      ("networkId", get_or_none device "networkId");
      ("serial", get_or_none device "serial");
      ("model", get_or_none device "model");
      ("interface", VStr (PyStr.upper interface));
      ("statusRaw", VStr raw_status);
      ("statusInternet", VStr (classify_status raw_status));
      ("publicIp", get_or_none uplink "publicIp");
      ("ipLocal", get_or_none uplink "ip");
      ("gateway", get_or_none uplink "gateway");
      ("lastReportedAt", get_or_none device "lastReportedAt") ].

(** The body of [for uplink in device.get('uplinks', [])]. *)
Definition uplink_rows (device : list (string * pyval)) (uplink : pyval) :
    script_error + list (gmap string pyval) :=
  match uplink with
  | VDict u =>
      match dict_get_or u "interface" (VStr "") with
      | VStr s =>
          let interface := PyStr.lower s in
          if String.eqb interface "wan1" || String.eqb interface "wan2" then
            match dict_get_or u "status" (VStr "unknown") with
            | VStr raw_status => inr [make_row device u interface raw_status]
            | _ => inl AttributeError
            end
          else inr []
      | _ => inl AttributeError
      end
  | _ => inl AttributeError
  end.

(** [device.get('networkId') != NETWORK_ID] is false. *)
Definition in_network (device : list (string * pyval)) : bool :=
  match dict_get device "networkId" with
  | Some (VStr s) => String.eqb s NETWORK_ID
  | _ => false
  end.

(** The body of [for device in data]. *)
Definition device_rows (device : pyval) : script_error + list (gmap string pyval) :=
  match device with
  | VDict d =>
      if in_network d then
        match iterate (dict_get_or d "uplinks" (VList [])) with
        | inl e => inl e
        | inr uplinks => collect (uplink_rows d) uplinks
        end
      else inr []
  | _ => inl AttributeError
  end.

(** Step 2 of the script: the rows for the value that [invoke_meraki]
    returned. *)
Definition build_rows (data : option pyval) : script_error + list (gmap string pyval) :=
  match data with
  | Some v =>
      if truthy v then
        match iterate v with
        | inl e => inl e
        | inr devices => collect device_rows devices
        end
      else inr []
  | None => inr []
  end.

(** The devices of the configured network, among dictionaries. *)
Definition of_network (device : pyval) : bool :=
  match device with
  | VDict d => in_network d
  | _ => false
  end.

(** Sample devices and uplinks. *)
Definition uplink_of (interface : string) (status : option pyval) : pyval :=
  VDict (("interface", VStr interface)
         :: match status with
            | Some v => [("status", v)]
            | None => []
            end
         ++ [("publicIp", VStr "203.0.113.7"); ("ip", VStr "10.0.0.2");
             ("gateway", VStr "10.0.0.1")])%list.

Definition device_of (network serial : string) (uplinks : pyval) : pyval :=
  VDict [("networkId", VStr network); ("serial", VStr serial);
         ("model", VStr "MX68"); ("uplinks", uplinks);
         ("lastReportedAt", VStr "2024-05-01T10:00:00Z")].

Definition items_of (v : pyval) : list (string * pyval) :=
  match v with
  | VDict items => items
  | _ => []
  end.

Definition first_device : list (string * pyval) :=
  items_of (device_of NETWORK_ID "Q2AA-0001"
              (VList [uplink_of "wan1" (Some (VStr "active"));
                      uplink_of "WAN2" (Some (VStr "Ready"));
                      uplink_of "cellular" (Some (VStr "active"))])).

Definition third_device : list (string * pyval) :=
  items_of (device_of NETWORK_ID "Q2AA-0003" (VList [uplink_of "wan1" None])).

Definition sample_devices : list pyval :=
  [ VDict first_device;
    device_of "N_1" "Q2AA-0002" VNone;
    VDict third_device ].

(** The rows that [sample_devices] give. *)
Definition sample_rows : list (gmap string pyval) :=
  [ make_row first_device (items_of (uplink_of "wan1" (Some (VStr "active"))))
             "wan1" "active";
    make_row first_device (items_of (uplink_of "WAN2" (Some (VStr "Ready"))))
             "wan2" "Ready";
    make_row third_device (items_of (uplink_of "wan1" None)) "wan1" "unknown" ].

(** The rows of the first and of the third sample device. *)
Definition first_rows : list (gmap string pyval) :=
  [ make_row first_device (items_of (uplink_of "wan1" (Some (VStr "active"))))
             "wan1" "active";
    make_row first_device (items_of (uplink_of "WAN2" (Some (VStr "Ready"))))
             "wan2" "Ready" ].

Definition third_rows : list (gmap string pyval) :=
  [ make_row third_device (items_of (uplink_of "wan1" None)) "wan1" "unknown" ].

Definition ready_row : gmap string pyval :=
  make_row first_device (items_of (uplink_of "WAN2" (Some (VStr "Ready")))) "wan2" "Ready".

End Script.

(** * Properties *)

(** ** Strings and the classifier *)

Lemma lower_char_idem (c : ascii) :
  PyStr.lower_char (PyStr.lower_char c) = PyStr.lower_char c.
Proof. destruct c as [[] [] [] [] [] [] [] []]; vm_compute; reflexivity. Qed.

Lemma lower_idem (s : string) : PyStr.lower (PyStr.lower s) = PyStr.lower s.
Proof.
  induction s as [|c s IH]; simpl.
  - reflexivity.
  - now rewrite lower_char_idem, IH.
Qed.

Lemma truthy_false (s : string) : PyStr.truthy s = false <-> s = "".
Proof. destruct s; simpl; split; congruence. Qed.

Lemma truthy_true (s : string) : PyStr.truthy s = true <-> s <> "".
Proof. destruct s; simpl; split; congruence. Qed.

(** C10: [classify_status] does not see the case of its argument: a raw
    status and its lower-cased form are classified alike. *)
Theorem classify_status_case_insensitive (s : string) :
  classify_status s = classify_status (PyStr.lower s).
Proof. unfold classify_status. now rewrite lower_idem. Qed.

(** C8, as the code has it: a raw status whose lower-cased form is [active]
    is classified ATIVA, one whose lower-cased form is [ready] PRONTA, and
    every other one FALHA. *)
Theorem classify_status_labels (s : string) :
  (PyStr.lower s = "active" /\ classify_status s = "ATIVA")
  \/ (PyStr.lower s = "ready" /\ classify_status s = "PRONTA")
  \/ (PyStr.lower s <> "active" /\ PyStr.lower s <> "ready"
      /\ classify_status s = "FALHA").
Proof.
  unfold classify_status.
  destruct (String.eqb_spec (PyStr.lower s) "active") as [Ha|Ha].
  - left. split; [exact Ha | reflexivity].
  - destruct (String.eqb_spec (PyStr.lower s) "ready") as [Hr|Hr].
    + right; left. split; [exact Hr | reflexivity].
    + right; right. repeat split; assumption.
Qed.

(** C8 as stated fails: [active] is not classified ACTIVE, [ready] is not
    classified READY, an unknown state is not classified FAILURE, and the
    raw state [ACTIVE], which is not [active], is not sent to the third
    class. *)
Lemma classify_status_not_english :
  classify_status "active" <> "ACTIVE"
  /\ classify_status "ready" <> "READY"
  /\ classify_status "failed" <> "FAILURE"
  /\ classify_status "active" = "ATIVA"
  /\ classify_status "ACTIVE" = classify_status "active".
Proof. vm_compute. repeat split; congruence. Qed.

(** ** The executor *)


Lemma calls_app (tr1 tr2 : list event) :
  calls (tr1 ++ tr2)%list = (calls tr1 + calls tr2)%nat.
Proof. unfold calls. now rewrite filter_app, length_app. Qed.

(** [time.sleep] sleeps the lengths from 0 to [max_sleep] and no other. *)
Lemma time_sleep_ok (secs : Z) (tr : list event) :
  0 <= secs <= max_sleep ->
  time_sleep secs tr = (Ok tt, (tr ++ [Slept secs])%list).
Proof.
  intros Hs. unfold time_sleep.
  destruct (Z.ltb_spec secs (- max_sleep)); destruct (Z.ltb_spec max_sleep secs);
    destruct (Z.ltb_spec secs 0); cbn [orb]; try reflexivity;
    unfold max_sleep in *; lia.
Qed.

Lemma time_sleep_negative (secs : Z) (tr : list event) :
  - max_sleep <= secs < 0 ->
  time_sleep secs tr = (Raised (ValueError (NegativeSleep secs)), tr).
Proof.
  intros Hs. unfold time_sleep.
  destruct (Z.ltb_spec secs (- max_sleep)); destruct (Z.ltb_spec max_sleep secs);
    destruct (Z.ltb_spec secs 0); cbn [orb]; try reflexivity;
    unfold max_sleep in *; lia.
Qed.

Lemma time_sleep_overflow (secs : Z) (tr : list event) :
  secs < - max_sleep \/ max_sleep < secs ->
  time_sleep secs tr = (Raised (OverflowError secs), tr).
Proof.
  intros Hs. unfold time_sleep.
  destruct (Z.ltb_spec secs (- max_sleep)); destruct (Z.ltb_spec max_sleep secs);
    cbn [orb]; try reflexivity; unfold max_sleep in *; lia.
Qed.

Section ExecutorFacts.

Context {J : Type} `{PyValue J}.
Variable py : builtins.
Variable API_KEY : string.
Variable net : nat -> request -> @reply J.

(** [send] performs the call given by [request_of], or raises. *)
Lemma send_request_of (method url : string) (data : option J) :
  send py API_KEY net method url data =
  match request_of py API_KEY method url data with
  | Some rq => perform net rq
  | None => raise (send_failure py method data)
  end.
Proof.
  unfold send, request_of, send_failure.
  destruct (String.eqb (str_upper py method) "GET"); [reflexivity|].
  destruct (String.eqb (str_upper py method) "POST");
    [destruct (dumps_if data); reflexivity|].
  destruct (String.eqb (str_upper py method) "PUT");
    [destruct (dumps_if data); reflexivity|].
  destruct (String.eqb (str_upper py method) "DELETE"); [reflexivity|].
  destruct (dumps_if data); reflexivity.
Qed.

(** [json.dumps] fails with its [TypeError] only. *)
Lemma dumps_if_Raised (data : option J) (e : exn) :
  dumps_if data = Raised e -> e = PyTypeError.
Proof.
  unfold dumps_if. destruct data as [d|]; [|discriminate].
  destruct (py_truthy d); [|discriminate].
  destruct (json_dumps d); [discriminate|]. now intros [= <-].
Qed.

(** What [send] raises before any call is no exception of [requests]. *)
Lemma send_failure_not_requests (method : string) (data : option J) :
  as_RequestException (send_failure py method data) = None.
Proof.
  unfold send_failure. destruct (dumps_if data) as [body|e] eqn:Hd; [reflexivity|].
  apply dumps_if_Raised in Hd as ->.
  destruct (_ || _); reflexivity.
Qed.

(** A method that is none of the four is refused. *)
Lemma send_failure_unsupported (method : string) (data : option J) :
  ~ In (str_upper py method) ["GET"; "POST"; "PUT"; "DELETE"] ->
  send_failure py method data
  = ValueError (UnsupportedMethod ("Unsupported method: " ++ method)).
Proof.
  intros Hnot. unfold send_failure.
  assert (Hne : forall m, In m ["GET"; "POST"; "PUT"; "DELETE"] ->
                          String.eqb (str_upper py method) m = false).
  { intros m Hm. apply String.eqb_neq. intros E. apply Hnot. now rewrite E. }
  rewrite !Hne by (simpl; tauto). destruct (dumps_if data); reflexivity.
Qed.

Lemma request_of_None (method url : string) (data : option J) :
  ~ In (str_upper py method) ["GET"; "POST"; "PUT"; "DELETE"] ->
  request_of py API_KEY method url data = None.
Proof.
  intros Hnot. unfold request_of.
  assert (Hne : forall m, In m ["GET"; "POST"; "PUT"; "DELETE"] ->
                          String.eqb (str_upper py method) m = false).
  { intros m Hm. apply String.eqb_neq. intros E. apply Hnot. now rewrite E. }
  rewrite !Hne by (simpl; tauto). reflexivity.
Qed.

Lemma request_of_url (method url : string) (data : option J) (rq : request) :
  request_of py API_KEY method url data = Some rq ->
  rq_url rq = url /\ rq_headers rq = HEADERS API_KEY.
Proof.
  unfold request_of.
  repeat (destruct (String.eqb _ _);
          [try destruct (dumps_if data); try discriminate;
           intros [= <-]; split; reflexivity|]).
  discriminate.
Qed.

(** *** One iteration, case by case *)

(** No call is made: what [send] raised leaves the function, nothing is
    sent. *)
Lemma iteration_unsupported (method url : string) (data : option J)
    (attempt : nat) (tr : list event) :
  request_of py API_KEY method url data = None ->
  iteration py API_KEY net method url data attempt tr =
  (Raised (send_failure py method data), tr).
Proof.
  intros Hrq.
  unfold iteration, try_except, try_body, bind.
  rewrite send_request_of, Hrq. unfold raise, except_RequestException.
  now rewrite send_failure_not_requests.
Qed.

(** The transport fails: the failure is wrapped, after the one call. *)
Lemma iteration_transport_failure (method url : string) (data : option J)
    (rq : request) (attempt : nat) (tr : list event) (msg : string) :
  request_of py API_KEY method url data = Some rq ->
  net (calls tr) rq = Failed msg ->
  iteration py API_KEY net method url data attempt tr =
  (Raised (PyException ("An error occurred during the request to "
                        ++ url ++ ": " ++ msg)),
   (tr ++ [Sent rq])%list).
Proof.
  intros Hrq Hnet.
  unfold iteration, try_except, try_body, bind.
  rewrite send_request_of, Hrq. unfold perform. rewrite Hnet. reflexivity.
Qed.

(** Rate limited with attempts left: one call, the message, the sleep, and
    the loop goes on. *)
Lemma iteration_rate_limited (method url : string) (data : option J)
    (rq : request) (attempt : nat) (tr : list event) (r : response) (secs : Z) :
  request_of py API_KEY method url data = Some rq ->
  net (calls tr) rq = Answered r ->
  status_code r = 429 ->
  (attempt < max_retries)%nat ->
  backoff_of py r secs ->
  iteration py API_KEY net method url data attempt tr =
  (Ok Continue,
   (tr ++ [Sent rq;
           Printed ("Rate limit hit (429). Retrying in "
                    ++ PyStr.of_int secs ++ " seconds...");
           Slept secs])%list).
Proof.
  intros Hrq Hnet Hst Hlt Hb.
  unfold iteration, try_except, try_body, bind.
  rewrite send_request_of, Hrq. unfold perform. rewrite Hnet, Hst.
  apply Nat.ltb_lt in Hlt. rewrite Hlt, Z.eqb_refl. cbn [andb].
  assert (Hsleep : forall t, time_sleep secs t = (Ok tt, (t ++ [Slept secs])%list)).
  { intros t. apply time_sleep_ok.
    destruct Hb as [[_ ->]|[[_ ->]|(s & _ & _ & _ & Hs)]];
      [unfold max_sleep; lia..|exact Hs]. }
  destruct Hb as [[Hh ->]|[[Hh ->]|(s & Hh & Hne & Hint & _)]]; rewrite Hh.
  - unfold ret, print_stderr, emit. rewrite Hsleep.
    now rewrite <- !app_assoc.
  - cbn [PyStr.truthy]. unfold ret, print_stderr, emit. rewrite Hsleep.
    now rewrite <- !app_assoc.
  - apply truthy_true in Hne. rewrite Hne. unfold py_int. rewrite Hint.
    unfold ret, print_stderr, emit. rewrite Hsleep.
    now rewrite <- !app_assoc.
Qed.

(** Rate limited with attempts left, and a [Retry-After] header that is not
    empty and that [int] refuses: the [ValueError] of [int] leaves the
    function; nothing is printed, there is no sleep. *)
Lemma iteration_bad_literal (method url : string) (data : option J)
    (rq : request) (attempt : nat) (tr : list event) (r : response) (s : string) :
  request_of py API_KEY method url data = Some rq ->
  net (calls tr) rq = Answered r ->
  status_code r = 429 ->
  (attempt < max_retries)%nat ->
  headers_get r "Retry-After" = Some s ->
  s <> "" ->
  str_int py s = None ->
  iteration py API_KEY net method url data attempt tr =
  (Raised (ValueError (InvalidLiteral s)), (tr ++ [Sent rq])%list).
Proof.
  intros Hrq Hnet Hst Hlt Hh Hne Hint.
  unfold iteration, try_except, try_body, bind.
  rewrite send_request_of, Hrq. unfold perform. rewrite Hnet, Hst.
  apply Nat.ltb_lt in Hlt. rewrite Hlt, Z.eqb_refl. cbn [andb].
  rewrite Hh. apply truthy_true in Hne. rewrite Hne.
  unfold py_int. rewrite Hint. reflexivity.
Qed.

(** Rate limited with attempts left, and a [Retry-After] that [int] reads
    as a length that [time.sleep] refuses: the message is printed, then
    [time.sleep] raises, a [ValueError] for a negative length and an
    [OverflowError] for one that does not fit its clock. *)
Lemma iteration_refused_sleep (method url : string) (data : option J)
    (rq : request) (attempt : nat) (tr : list event) (r : response)
    (s : string) (secs : Z) :
  request_of py API_KEY method url data = Some rq ->
  net (calls tr) rq = Answered r ->
  status_code r = 429 ->
  (attempt < max_retries)%nat ->
  headers_get r "Retry-After" = Some s ->
  s <> "" ->
  str_int py s = Some secs ->
  secs < 0 \/ max_sleep < secs ->
  exists e,
    iteration py API_KEY net method url data attempt tr =
    (Raised e,
     (tr ++ [Sent rq;
             Printed ("Rate limit hit (429). Retrying in "
                      ++ PyStr.of_int secs ++ " seconds...")])%list)
    /\ ((- max_sleep <= secs < 0 /\ e = ValueError (NegativeSleep secs))
        \/ ((secs < - max_sleep \/ max_sleep < secs) /\ e = OverflowError secs)).
Proof.
  intros Hrq Hnet Hst Hlt Hh Hne Hint Hbad.
  unfold iteration, try_except, try_body, bind.
  rewrite send_request_of, Hrq. unfold perform. rewrite Hnet, Hst.
  apply Nat.ltb_lt in Hlt. rewrite Hlt, Z.eqb_refl. cbn [andb].
  rewrite Hh. apply truthy_true in Hne. rewrite Hne.
  unfold py_int. rewrite Hint. unfold ret, print_stderr, emit.
  destruct (Z_le_dec (- max_sleep) secs) as [Hlo|Hlo];
    [destruct (Z_le_dec secs max_sleep) as [Hhi|Hhi]|].
  - rewrite time_sleep_negative by lia.
    eexists. split; [cbn; now rewrite <- !app_assoc|]. left. split; [lia|reflexivity].
  - rewrite time_sleep_overflow by lia.
    eexists. split; [cbn; now rewrite <- !app_assoc|]. right. split; [lia|reflexivity].
  - rewrite time_sleep_overflow by lia.
    eexists. split; [cbn; now rewrite <- !app_assoc|]. right. split; [lia|reflexivity].
Qed.

(** The response is not retried when it is not a 429 or when no attempt is
    left. *)
Lemma not_retried (status : Z) (attempt : nat) :
  ~ (status = 429 /\ (attempt < max_retries)%nat) ->
  (status =? 429) && (attempt <? max_retries)%nat = false.
Proof.
  intros Hn. apply andb_false_iff.
  destruct (Z.eqb_spec status 429) as [E|E]; [|now left].
  right. apply Nat.ltb_ge. apply Nat.nlt_ge. intros Hlt. apply Hn. now split.
Qed.

(** Success with a body that decodes: the decoded body is returned. *)
Lemma iteration_success_json (method url : string) (data : option J)
    (rq : request) (attempt : nat) (tr : list event) (r : response) (j : J) :
  request_of py API_KEY method url data = Some rq ->
  net (calls tr) rq = Answered r ->
  200 <= status_code r < 300 ->
  content r <> "" ->
  json r = Decoded j ->
  iteration py API_KEY net method url data attempt tr =
  (Ok (Return (Some j)), (tr ++ [Sent rq])%list).
Proof.
  intros Hrq Hnet Hst Hc Hj.
  unfold iteration, try_except, try_body, bind.
  rewrite send_request_of, Hrq. unfold perform. rewrite Hnet.
  rewrite not_retried by lia.
  replace ((200 <=? status_code r) && (status_code r <? 300)) with true
    by (symmetry; apply andb_true_iff; split; [apply Z.leb_le|apply Z.ltb_lt]; lia).
  apply truthy_true in Hc. rewrite Hc.
  unfold response_json. rewrite Hj. reflexivity.
Qed.

(** Success with an empty body: [None] is returned. *)
Lemma iteration_success_empty (method url : string) (data : option J)
    (rq : request) (attempt : nat) (tr : list event) (r : response) :
  request_of py API_KEY method url data = Some rq ->
  net (calls tr) rq = Answered r ->
  200 <= status_code r < 300 ->
  content r = "" ->
  iteration py API_KEY net method url data attempt tr =
  (Ok (Return None), (tr ++ [Sent rq])%list).
Proof.
  intros Hrq Hnet Hst Hc.
  unfold iteration, try_except, try_body, bind.
  rewrite send_request_of, Hrq. unfold perform. rewrite Hnet.
  rewrite not_retried by lia.
  replace ((200 <=? status_code r) && (status_code r <? 300)) with true
    by (symmetry; apply andb_true_iff; split; [apply Z.leb_le|apply Z.ltb_lt]; lia).
  rewrite Hc. reflexivity.
Qed.

(** Any other response: the [HTTPError] raised in the [try] block is caught
    by its own [except] clause and leaves the function as a plain
    [Exception], like a transport failure does. *)
Lemma iteration_http_error (method url : string) (data : option J)
    (rq : request) (attempt : nat) (tr : list event) (r : response) :
  request_of py API_KEY method url data = Some rq ->
  net (calls tr) rq = Answered r ->
  ~ (status_code r = 429 /\ (attempt < max_retries)%nat) ->
  ~ (200 <= status_code r < 300) ->
  iteration py API_KEY net method url data attempt tr =
  (Raised (PyException
             ("An error occurred during the request to " ++ url ++ ": "
              ++ "HTTP " ++ PyStr.of_int (status_code r) ++ " at " ++ url ++ nl
              ++ match json r with
                 | Decoded j => py_str j
                 | Undecodable _ => text r
                 end)),
   (tr ++ [Sent rq])%list).
Proof.
  intros Hrq Hnet Hnr Hst.
  unfold iteration, try_except, try_body, bind.
  rewrite send_request_of, Hrq. unfold perform. rewrite Hnet.
  rewrite not_retried by assumption.
  replace ((200 <=? status_code r) && (status_code r <? 300)) with false
    by (symmetry; apply andb_false_iff;
        destruct (Z.leb_spec 200 (status_code r)); [right; apply Z.ltb_ge; lia|now left]).
  unfold error_content, try_except, bind, response_json.
  destruct (json r) as [j|msg]; reflexivity.
Qed.

(** *** The shape of every iteration *)

(** Whatever the transport answers, an iteration makes no call (the method
    is refused, or [json.dumps] raised) or exactly one, which comes first;
    and it goes on to another round only while attempts are left. *)
Lemma iteration_shape (method url : string) (data : option J)
    (attempt : nat) (tr tr' : list event) (res : result flow) :
  iteration py API_KEY net method url data attempt tr = (res, tr') ->
  (request_of py API_KEY method url data = None /\ tr' = tr
   /\ res = Raised (send_failure py method data))
  \/ (exists rq extra,
        request_of py API_KEY method url data = Some rq
        /\ tr' = (tr ++ Sent rq :: extra)%list
        /\ calls extra = 0%nat
        /\ (res = Ok Continue -> (attempt < max_retries)%nat)
        /\ (forall e, res = Raised e -> as_RequestException e = None)).
Proof.
  destruct (request_of py API_KEY method url data) as [rq|] eqn:Hrq.
  2:{ rewrite iteration_unsupported by assumption.
      intros [= <- <-]. left. repeat split. }
  unfold iteration, try_except, try_body, bind.
  rewrite send_request_of, Hrq.
  intros Hit. right. exists rq.
  unfold perform in Hit.
  destruct (net (calls tr) rq) as [r|msg].
  2:{ injection Hit as <- <-. exists []. repeat split; try discriminate.
      intros e [= <-]. reflexivity. }
  destruct ((status_code r =? 429) && (attempt <? max_retries)%nat) eqn:Hretry.
  - apply andb_true_iff in Hretry as [_ Hlt]. apply Nat.ltb_lt in Hlt.
    assert (Hgo : forall secs,
      (let (r0, t0) :=
         (let* _ := print_stderr ("Rate limit hit (429). Retrying in "
                                  ++ PyStr.of_int secs ++ " seconds...") in
          let* _ := time_sleep secs in ret Continue)%py (tr ++ [Sent rq])%list in
       match r0 with
       | Ok a => (Ok a, t0)
       | Raised e =>
           match except_RequestException url e with
           | Some h => h t0
           | None => (Raised e, t0)
           end
       end) = (res, tr') ->
      exists extra, Some rq = Some rq /\ tr' = (tr ++ Sent rq :: extra)%list
        /\ calls extra = 0%nat
        /\ (res = Ok Continue -> (attempt < max_retries)%nat)
        /\ (forall e, res = Raised e -> as_RequestException e = None)).
    { intros secs. unfold bind, print_stderr, emit, time_sleep, ret, raise.
      destruct ((secs <? - max_sleep) || (max_sleep <? secs));
        [|destruct (secs <? 0)]; cbn.
      - intros [= <- <-]. eexists. rewrite <- app_assoc.
        repeat split; try discriminate. intros e [= <-]. reflexivity.
      - intros [= <- <-]. eexists. rewrite <- app_assoc.
        repeat split; try discriminate. intros e [= <-]. reflexivity.
      - intros [= <- <-]. eexists. rewrite <- !app_assoc.
        repeat split; try discriminate. intros _. exact Hlt. }
    destruct (headers_get r "Retry-After") as [s|].
    + destruct (PyStr.truthy s).
      * unfold py_int in Hit. destruct (str_int py s) as [n|].
        -- apply (Hgo n). exact Hit.
        -- injection Hit as <- <-. exists []. repeat split; try discriminate.
           intros e [= <-]. reflexivity.
      * apply (Hgo 2). exact Hit.
    + apply (Hgo 2). exact Hit.
  - destruct ((200 <=? status_code r) && (status_code r <? 300)).
    + destruct (PyStr.truthy (content r)).
      * unfold response_json, bind, ret, raise in Hit.
        destruct (json r) as [j|msg]; injection Hit as <- <-; exists [];
          repeat split; try discriminate.
        intros e [= <-]. reflexivity.
      * injection Hit as <- <-. exists []. repeat split; discriminate.
    + unfold error_content, try_except, bind, response_json, ret, raise in Hit.
      destruct (json r) as [j|msg]; injection Hit as <- <-; exists [];
        repeat split; try discriminate; intros e [= <-]; reflexivity.
Qed.

(** *** The loop *)

(** The loop always ends: it needs one round, and no more rounds than
    attempts are left. *)
Lemma retry_loop_total (method url : string) (data : option J) (fuel : nat) :
  forall (attempt : nat) (tr : list event),
    (0 < fuel)%nat ->
    (max_retries <= attempt + fuel)%nat ->
    exists res tr', retry_loop py API_KEY net fuel method url data attempt tr = Some (res, tr').
Proof.
  induction fuel as [|fuel IH]; intros attempt tr Hpos Hfuel; [lia|].
  cbn [retry_loop].
  destruct (iteration py API_KEY net method url data (S attempt) tr) as [res tr1] eqn:Hit.
  destruct res as [[|v]|e]; eauto.
  apply iteration_shape in Hit as [(_ & _ & [=])|(rq & extra & _ & _ & _ & Hlt & _)].
  specialize (Hlt eq_refl). apply IH; lia.
Qed.

(** More fuel does not change the outcome. *)
Lemma retry_loop_fuel_mono (method url : string) (data : option J) (fuel : nat) :
  forall (attempt : nat) (tr : list event) out (more : nat),
    retry_loop py API_KEY net fuel method url data attempt tr = Some out ->
    retry_loop py API_KEY net (fuel + more) method url data attempt tr = Some out.
Proof.
  induction fuel as [|fuel IH]; intros attempt tr out more; [discriminate|].
  cbn [retry_loop Nat.add].
  destruct (iteration py API_KEY net method url data (S attempt) tr) as [[[|v]|e] tr1];
    auto.
Qed.

(** The outcome's trace extends the trace the loop started from. *)
Lemma retry_loop_extends (method url : string) (data : option J) (fuel : nat) :
  forall (attempt : nat) (tr tr' : list event) res,
    retry_loop py API_KEY net fuel method url data attempt tr = Some (res, tr') ->
    exists ext, tr' = (tr ++ ext)%list.
Proof.
  induction fuel as [|fuel IH]; intros attempt tr tr' res; [discriminate|].
  cbn [retry_loop].
  destruct (iteration py API_KEY net method url data (S attempt) tr) as [r1 tr1] eqn:Hit.
  assert (Hext : exists ext, tr1 = (tr ++ ext)%list).
  { apply iteration_shape in Hit as [(_ & -> & _)|(rq & extra & _ & -> & _)].
    - exists []. now rewrite app_nil_r.
    - eauto. }
  destruct Hext as [ext1 ->].
  destruct r1 as [[|v]|e].
  - intros Hloop. apply IH in Hloop as [ext2 ->].
    exists (ext1 ++ ext2)%list. now rewrite app_assoc.
  - intros [= <- <-]. eauto.
  - intros [= <- <-]. eauto.
Qed.

(** The loop makes at most as many calls as attempts are left (one, when
    none is). *)
Lemma retry_loop_calls_le (method url : string) (data : option J) (fuel : nat) :
  forall (attempt : nat) (tr tr' : list event) res,
    retry_loop py API_KEY net fuel method url data attempt tr = Some (res, tr') ->
    (calls tr' <= calls tr + Nat.max 1 (max_retries - attempt))%nat.
Proof.
  induction fuel as [|fuel IH]; intros attempt tr tr' res; [discriminate|].
  cbn [retry_loop].
  destruct (iteration py API_KEY net method url data (S attempt) tr) as [r1 tr1] eqn:Hit.
  apply iteration_shape in Hit
    as [(_ & -> & ->)|(rq & extra & _ & -> & Hextra & Hlt & _)].
  - intros [= <- <-]. lia.
  - assert (Hc : calls (tr ++ Sent rq :: extra) = S (calls tr)).
    { change (Sent rq :: extra) with ([Sent rq] ++ extra)%list.
      rewrite !calls_app, Hextra. change (calls [Sent rq]) with 1%nat. lia. }
    destruct r1 as [[|v]|e].
    + intros Hloop. apply IH in Hloop. specialize (Hlt eq_refl).
      rewrite Hc in Hloop. unfold max_retries in *. lia.
    + intros [= <- <-]. rewrite Hc. lia.
    + intros [= <- <-]. rewrite Hc. lia.
Qed.

(** No exception of [requests] leaves the loop: each one, the [HTTPError]
    of an error response included, is turned into a plain [Exception]. *)
Lemma retry_loop_no_RequestException (method url : string) (data : option J)
    (fuel : nat) :
  forall (attempt : nat) (tr tr' : list event) (e : exn),
    retry_loop py API_KEY net fuel method url data attempt tr = Some (Raised e, tr') ->
    as_RequestException e = None.
Proof.
  induction fuel as [|fuel IH]; intros attempt tr tr' e; [discriminate|].
  cbn [retry_loop].
  destruct (iteration py API_KEY net method url data (S attempt) tr) as [r1 tr1] eqn:Hit.
  destruct r1 as [[|v]|e1].
  - apply IH.
  - discriminate.
  - intros [= <- <-].
    apply iteration_shape in Hit as [(_ & _ & [= ->])|(rq & extra & _ & _ & _ & _ & Hre)].
    + apply send_failure_not_requests.
    + now apply Hre.
Qed.

(** [invoke_meraki] always produces an outcome, after at most five calls. *)
Lemma invoke_meraki_total (method uri : string) (data : option J) :
  exists res tr,
    invoke_meraki py API_KEY net method uri data = Some (res, tr)
    /\ (calls tr <= max_retries)%nat.
Proof.
  unfold invoke_meraki, invoke_meraki_fuel.
  destruct (retry_loop_total method (BASE_URL ++ uri) data max_retries 0 [])
    as (res & tr & Hrun); [unfold max_retries; lia..|].
  exists res, tr. split; [exact Hrun|].
  apply retry_loop_calls_le in Hrun. cbn in Hrun. unfold max_retries. lia.
Qed.

(** *** The claims about the executor

    In [retry_loop] the argument [attempt] is the counter as the loop body
    finds it, before [attempt += 1]; the tests of the body see [S attempt]. *)

(** C1: when [method.upper()] is none of GET, POST, PUT and DELETE,
    [invoke_meraki] raises the [ValueError] for an unsupported method, and
    its trace is empty: no network call was made (nor anything else).
    [str_upper py] is Python's [upper], whatever it does. *)
Theorem unsupported_method_fails_before_any_call
    (method uri : string) (data : option J) :
  ~ In (str_upper py method) ["GET"; "POST"; "PUT"; "DELETE"] ->
  invoke_meraki py API_KEY net method uri data =
  Some (Raised (ValueError (UnsupportedMethod ("Unsupported method: " ++ method))), []).
Proof.
  intros Hnot. unfold invoke_meraki, invoke_meraki_fuel, max_retries.
  cbn [retry_loop].
  rewrite iteration_unsupported by (now apply request_of_None).
  now rewrite send_failure_unsupported.
Qed.

(** C2, as the code has it: on a 429 with attempts left whose [Retry-After]
    header is missing or empty, or is read by [int] as a number of seconds
    from 0 to [max_sleep] (what [time.sleep] accepts), the round makes its
    call, announces the pause and sleeps (2 seconds in the first two cases,
    the number of the header in the third), and the loop goes on with the
    counter incremented: its next event is the same request sent again. *)
Theorem rate_limited_request_is_resent
    (method url : string) (data : option J) (rq : request)
    (attempt fuel : nat) (tr : list event) (r : response) (secs : Z) :
  request_of py API_KEY method url data = Some rq ->
  net (calls tr) rq = Answered r ->
  status_code r = 429 ->
  (S attempt < max_retries)%nat ->
  backoff_of py r secs ->
  (max_retries <= S attempt + fuel)%nat ->
  let paused :=
    (tr ++ [Sent rq;
            Printed ("Rate limit hit (429). Retrying in "
                     ++ PyStr.of_int secs ++ " seconds...");
            Slept secs])%list in
  retry_loop py API_KEY net (S fuel) method url data attempt tr =
  retry_loop py API_KEY net fuel method url data (S attempt) paused
  /\ exists res rest,
       retry_loop py API_KEY net (S fuel) method url data attempt tr =
       Some (res, (paused ++ Sent rq :: rest)%list).
Proof.
  intros Hrq Hnet Hst Hlt Hb Hfuel paused.
  assert (Hstep : retry_loop py API_KEY net (S fuel) method url data attempt tr =
                  retry_loop py API_KEY net fuel method url data (S attempt) paused).
  { cbn [retry_loop].
    now rewrite (iteration_rate_limited method url data rq (S attempt) tr r secs). }
  split; [exact Hstep|]. rewrite Hstep.
  destruct fuel as [|fuel]; [unfold max_retries in *; lia|].
  destruct (retry_loop_total method url data (S fuel) (S attempt) paused)
    as (res & tr' & Hrun); [lia..|].
  exists res. rewrite Hrun.
  cbn [retry_loop] in Hrun.
  destruct (iteration py API_KEY net method url data (S (S attempt)) paused)
    as [r1 tr1] eqn:Hit.
  apply iteration_shape in Hit
    as [(Hnone & _)|(rq' & extra & Hrq' & -> & _)]; [congruence|].
  assert (rq' = rq) as -> by congruence.
  destruct r1 as [[|v]|e].
  - apply retry_loop_extends in Hrun as [ext ->].
    exists (extra ++ ext)%list. now rewrite <- app_assoc.
  - injection Hrun as <- <-. eauto.
  - injection Hrun as <- <-. eauto.
Qed.


(** C4: when the transport fails during a send, whatever the attempt
    counter, the loop ends at once: the failure is wrapped in the exception
    the caller receives, and the trace grows by that one call only. *)
Theorem transport_failure_is_not_retried
    (method url : string) (data : option J) (rq : request)
    (attempt fuel : nat) (tr : list event) (msg : string) :
  request_of py API_KEY method url data = Some rq ->
  net (calls tr) rq = Failed msg ->
  retry_loop py API_KEY net (S fuel) method url data attempt tr =
  Some (Raised (PyException ("An error occurred during the request to "
                             ++ url ++ ": " ++ msg)),
        (tr ++ [Sent rq])%list).
Proof.
  intros Hrq Hnet. cbn [retry_loop].
  now rewrite (iteration_transport_failure method url data rq (S attempt) tr msg).
Qed.

(** C5, as the code has it: on a response with status in [200, 300), the
    loop returns the JSON-decoded body when the body is not empty and
    [response.json()] decodes it, and [None] (no error) when the body is
    empty. *)
Theorem success_returns_body_or_none
    (method url : string) (data : option J) (rq : request)
    (attempt fuel : nat) (tr : list event) (r : response) :
  request_of py API_KEY method url data = Some rq ->
  net (calls tr) rq = Answered r ->
  200 <= status_code r < 300 ->
  (forall j, content r <> "" -> json r = Decoded j ->
     retry_loop py API_KEY net (S fuel) method url data attempt tr =
     Some (Ok (Some j), (tr ++ [Sent rq])%list))
  /\ (content r = "" ->
      retry_loop py API_KEY net (S fuel) method url data attempt tr =
      Some (Ok None, (tr ++ [Sent rq])%list)).
Proof.
  intros Hrq Hnet Hst. split.
  - intros j Hc Hj. cbn [retry_loop].
    now rewrite (iteration_success_json method url data rq (S attempt) tr r j).
  - intros Hc. cbn [retry_loop].
    now rewrite (iteration_success_empty method url data rq (S attempt) tr r).
Qed.

(** C7, as the code has it: on a 429 with attempts left whose [Retry-After]
    header is not empty and is refused by [int], the [ValueError] of [int]
    is raised to the caller after the one call; there is no sleep and no
    further attempt.  [str_int py] is Python's [int], whatever it reads. *)
Theorem unparseable_retry_after_raises
    (method url : string) (data : option J) (rq : request)
    (attempt fuel : nat) (tr : list event) (r : response) (s : string) :
  request_of py API_KEY method url data = Some rq ->
  net (calls tr) rq = Answered r ->
  status_code r = 429 ->
  (S attempt < max_retries)%nat ->
  headers_get r "Retry-After" = Some s ->
  s <> "" ->
  str_int py s = None ->
  retry_loop py API_KEY net (S fuel) method url data attempt tr =
  Some (Raised (ValueError (InvalidLiteral s)), (tr ++ [Sent rq])%list).
Proof.
  intros Hrq Hnet Hst Hlt Hh Hne Hint. cbn [retry_loop].
  now rewrite (iteration_bad_literal method url data rq (S attempt) tr r s).
Qed.

(** C9: on a 429 with attempts left whose [Retry-After] header is present
    but empty, the header is not parsed: the round sleeps the default of 2
    seconds and the loop goes on with the next attempt. *)
Theorem empty_retry_after_sleeps_default
    (method url : string) (data : option J) (rq : request)
    (attempt fuel : nat) (tr : list event) (r : response) :
  request_of py API_KEY method url data = Some rq ->
  net (calls tr) rq = Answered r ->
  status_code r = 429 ->
  (S attempt < max_retries)%nat ->
  headers_get r "Retry-After" = Some "" ->
  let paused :=
    (tr ++ [Sent rq;
            Printed "Rate limit hit (429). Retrying in 2 seconds...";
            Slept 2])%list in
  iteration py API_KEY net method url data (S attempt) tr = (Ok Continue, paused)
  /\ retry_loop py API_KEY net (S fuel) method url data attempt tr =
     retry_loop py API_KEY net fuel method url data (S attempt) paused.
Proof.
  intros Hrq Hnet Hst Hlt Hh paused.
  assert (Hit : iteration py API_KEY net method url data (S attempt) tr
                = (Ok Continue, paused)).
  { apply (iteration_rate_limited method url data rq (S attempt) tr r 2);
      try assumption.
    right; left. now split. }
  split; [exact Hit|]. cbn [retry_loop]. now rewrite Hit.
Qed.

End ExecutorFacts.

(** ** The executor at concrete inputs *)

Import Sample.

Example int_literals :
  PyStr.int "3" = Some 3 /\ PyStr.int " +1_000 " = Some 1000
  /\ PyStr.int "007" = Some 7 /\ PyStr.int "-1" = Some (-1)
  /\ PyStr.int "" = None /\ PyStr.int "1__0" = None /\ PyStr.int "3.5" = None
  /\ PyStr.int "- 1" = None.
Proof. repeat split; reflexivity. Qed.

Example int_white_space :
  PyStr.int (String (ascii_of_nat 160) "3") = Some 3
  /\ PyStr.int (String "3" (String (ascii_of_nat 133) "")) = Some 3
  /\ PyStr.int (String (ascii_of_nat 11) "3") = Some 3
  /\ PyStr.int (String (ascii_of_nat 28) "3") = None
  /\ PyStr.int (String "3" (String (ascii_of_nat 31) "")) = None.
Proof. repeat split; reflexivity. Qed.

Example int_digit_limit :
  PyStr.int (str_times "0" 4300) = Some 0
  /\ PyStr.int (str_times "0" 4301) = None
  /\ PyStr.int ("-" ++ str_times "1_" 4299 ++ "1") <> None.
Proof. vm_compute. repeat split. discriminate. Qed.

(** A pause too long for the clock of [time.sleep]: the announcement is
    printed, [OverflowError] leaves the function, nothing is sent again. *)
Example too_long_retry_after_overflows :
  invoke_meraki sample_builtins "k"
    (scripted [Answered (limited (Some too_long))] (Answered ok_empty_list))
    "GET" uplinks_uri None =
  Some (Raised (OverflowError 99999999999999999999),
        [Sent get_uplinks;
         Printed "Rate limit hit (429). Retrying in 99999999999999999999 seconds..."]).
Proof. reflexivity. Qed.

(** Data that [json.dumps] refuses: its [TypeError] leaves the function
    before any call. *)
Example unserializable_data_sends_nothing :
  @invoke_meraki unit {| py_truthy := fun _ => true; py_str := fun _ => "{1, 2}";
                         json_dumps := fun _ => None |}
                 sample_builtins "k" (fun _ _ => Failed "unreachable")
                 "POST" uplinks_uri (Some tt) =
  Some (Raised PyTypeError, []).
Proof. reflexivity. Qed.

(** Two answers 429 with [Retry-After: 3], then a 200 with a JSON body:
    three calls, two pauses of 3 seconds, and the decoded body. *)
Example retried_twice_then_served :
  invoke_meraki sample_builtins "k"
    (scripted [Answered (limited (Some "3")); Answered (limited (Some "3"))]
              (Answered ok_empty_list))
    "get" uplinks_uri None =
  Some (Ok (Some (VList [])),
        [Sent get_uplinks;
         Printed "Rate limit hit (429). Retrying in 3 seconds..."; Slept 3;
         Sent get_uplinks;
         Printed "Rate limit hit (429). Retrying in 3 seconds..."; Slept 3;
         Sent get_uplinks]).
Proof. reflexivity. Qed.


Lemma unsupported_method_witness :
  invoke_meraki sample_builtins "k" (scripted [] (Failed "unreachable")) "patch" uplinks_uri None =
  Some (Raised (ValueError (UnsupportedMethod "Unsupported method: patch")), []).
Proof.
  apply (unsupported_method_fails_before_any_call
           sample_builtins "k" (scripted [] (Failed "unreachable")) "patch" uplinks_uri None).
  vm_compute. intros [E|[E|[E|[E|[]]]]]; discriminate E.
Defined.

Lemma rate_limited_request_is_resent_witness :
  let net := scripted [Answered (limited (Some "3")); Answered (limited (Some "3"))]
                      (Answered ok_empty_list) in
  let paused := [Sent get_uplinks;
                 Printed "Rate limit hit (429). Retrying in 3 seconds...";
                 Slept 3] in
  retry_loop sample_builtins "k" net 5 "get" uplinks_url None 0 [] =
  retry_loop sample_builtins "k" net 4 "get" uplinks_url None 1 paused
  /\ exists res rest,
       retry_loop sample_builtins "k" net 5 "get" uplinks_url None 0 [] =
       Some (res, (paused ++ Sent get_uplinks :: rest)%list).
Proof.
  apply (rate_limited_request_is_resent
           sample_builtins "k"
           (scripted [Answered (limited (Some "3")); Answered (limited (Some "3"))]
                     (Answered ok_empty_list))
           "get" uplinks_url None get_uplinks 0 4 [] (limited (Some "3")) 3).
  - reflexivity.
  - reflexivity.
  - reflexivity.
  - unfold max_retries. lia.
  - right; right. exists "3". split; [reflexivity|]. split; [discriminate|].
    split; [reflexivity|]. unfold max_sleep. lia.
  - unfold max_retries. lia.
Defined.


Lemma transport_failure_witness :
  retry_loop sample_builtins "k" (scripted [] (Failed "Connection refused")) 5
             "GET" uplinks_url None 0 [] =
  Some (Raised (PyException ("An error occurred during the request to "
                             ++ uplinks_url ++ ": Connection refused")),
        [Sent get_uplinks]).
Proof.
  apply (transport_failure_is_not_retried
           sample_builtins "k" (scripted [] (Failed "Connection refused"))
           "GET" uplinks_url None get_uplinks 0 4 [] "Connection refused").
  - reflexivity.
  - reflexivity.
Defined.

Lemma success_returns_body_witness :
  retry_loop sample_builtins "k" (scripted [] (Answered ok_empty_list)) 5
             "GET" uplinks_url None 0 [] =
  Some (Ok (Some (VList [])), [Sent get_uplinks])
  /\ retry_loop sample_builtins "k" (scripted [] (Answered no_content)) 5
                "delete" uplinks_url None 0 [] =
     Some (Ok None, [Sent delete_uplinks]).
Proof.
  split.
  - apply (proj1 (success_returns_body_or_none
                    sample_builtins "k" (scripted [] (Answered ok_empty_list))
                    "GET" uplinks_url None get_uplinks 0 4 [] ok_empty_list
                    eq_refl eq_refl ltac:(simpl; lia))).
    + discriminate.
    + reflexivity.
  - apply (proj2 (success_returns_body_or_none
                    sample_builtins "k" (scripted [] (Answered no_content))
                    "delete" uplinks_url None delete_uplinks 0 4 [] no_content
                    eq_refl eq_refl ltac:(simpl; lia))).
    reflexivity.
Defined.

Lemma unparseable_retry_after_witness :
  retry_loop sample_builtins "k" (scripted [] (Answered (limited (Some http_date)))) 5
             "GET" uplinks_url None 0 [] =
  Some (Raised (ValueError (InvalidLiteral http_date)), [Sent get_uplinks]).
Proof.
  apply (unparseable_retry_after_raises
           sample_builtins "k" (scripted [] (Answered (limited (Some http_date))))
           "GET" uplinks_url None get_uplinks 0 4 [] (limited (Some http_date))
           http_date).
  - reflexivity.
  - reflexivity.
  - reflexivity.
  - unfold max_retries. lia.
  - reflexivity.
  - discriminate.
  - reflexivity.
Defined.

Lemma empty_retry_after_witness :
  let net := scripted [] (Answered (limited (Some ""))) in
  let paused := [Sent get_uplinks;
                 Printed "Rate limit hit (429). Retrying in 2 seconds...";
                 Slept 2] in
  iteration sample_builtins "k" net "GET" uplinks_url None 1 [] = (Ok Continue, paused)
  /\ retry_loop sample_builtins "k" net 5 "GET" uplinks_url None 0 [] =
     retry_loop sample_builtins "k" net 4 "GET" uplinks_url None 1 paused.
Proof.
  apply (empty_retry_after_sleeps_default
           sample_builtins "k" (scripted [] (Answered (limited (Some ""))))
           "GET" uplinks_url None get_uplinks 0 4 [] (limited (Some ""))).
  - reflexivity.
  - reflexivity.
  - reflexivity.
  - unfold max_retries. lia.
  - reflexivity.
Defined.

(** C2 as stated fails: on a first answer 429 whose [Retry-After] header is
    present and reads -1, the code prints its message and [time.sleep]
    raises; nothing is slept and the request is not sent again, although
    the transport would have answered 200.  The same happens with a number
    of seconds too long for [time.sleep], and a header that [int] refuses
    ends the call before the message. *)
Lemma negative_retry_after_is_not_retried :
  let net := scripted [Answered (limited (Some "-1"))] (Answered ok_empty_list) in
  let tr := [Sent get_uplinks;
             Printed "Rate limit hit (429). Retrying in -1 seconds..."] in
  let net_long := scripted [Answered (limited (Some too_long))] (Answered ok_empty_list) in
  let tr_long := [Sent get_uplinks;
                  Printed "Rate limit hit (429). Retrying in 99999999999999999999 seconds..."] in
  let net_date := scripted [Answered (limited (Some http_date))] (Answered ok_empty_list) in
  headers_get (limited (Some "-1")) "Retry-After" = Some "-1"
  /\ PyStr.int "-1" = Some (-1)
  /\ invoke_meraki sample_builtins "k" net "GET" uplinks_uri None =
     Some (Raised (ValueError (NegativeSleep (-1))), tr)
  /\ calls tr = 1%nat
  /\ (forall secs, ~ In (Slept secs) tr)
  /\ PyStr.int too_long = Some 99999999999999999999
  /\ invoke_meraki sample_builtins "k" net_long "GET" uplinks_uri None =
     Some (Raised (OverflowError 99999999999999999999), tr_long)
  /\ (forall secs, ~ In (Slept secs) tr_long)
  /\ PyStr.int http_date = None
  /\ invoke_meraki sample_builtins "k" net_date "GET" uplinks_uri None =
     Some (Raised (ValueError (InvalidLiteral http_date)), [Sent get_uplinks]).
Proof.
  cbv zeta. repeat split; try reflexivity.
  - intros secs [E|[E|[]]]; discriminate E.
  - intros secs [E|[E|[]]]; discriminate E.
Qed.


(** C5 as stated fails: a 200 answer whose body is not empty and is not
    JSON does not make [invoke_meraki] return a decoded body: the
    [JSONDecodeError] of [response.json()] is raised inside the [try] block
    and the caller receives an exception. *)
Lemma non_json_success_body_raises :
  let html := mk_response 200 None "<html>Service page</html>" None in
  200 <= status_code html < 300
  /\ content html <> ""
  /\ invoke_meraki sample_builtins "k" (scripted [] (Answered html))
                   "GET" uplinks_uri None =
     Some (Raised (PyException
                     ("An error occurred during the request to " ++ uplinks_url
                      ++ ": Expecting value: line 1 column 1 (char 0)")),
           [Sent get_uplinks])
  /\ (forall v tr,
        invoke_meraki sample_builtins "k" (scripted [] (Answered html))
                      "GET" uplinks_uri None <> Some (Ok v, tr)).
Proof.
  cbv zeta. split; [simpl; lia|]. split; [discriminate|]. split; [reflexivity|].
  intros v tr. vm_compute. discriminate.
Qed.

(** C7 as stated fails: with an HTTP date in the [Retry-After] header of a
    first 429, the call crashes with the [ValueError] of [int]: the default
    of 2 seconds is not slept, and the second call, which would have been
    answered 200, is never made. *)
Lemma http_date_retry_after_crashes :
  let net := scripted [Answered (limited (Some http_date))] (Answered ok_empty_list) in
  PyStr.int http_date = None
  /\ invoke_meraki sample_builtins "k" net "GET" uplinks_uri None =
     Some (Raised (ValueError (InvalidLiteral http_date)), [Sent get_uplinks])
  /\ ~ In (Slept 2) [Sent get_uplinks]
  /\ invoke_meraki sample_builtins "k" net "GET" uplinks_uri None <>
     Some (Ok (Some (VList [])),
           [Sent get_uplinks;
            Printed "Rate limit hit (429). Retrying in 2 seconds...";
            Slept 2;
            Sent get_uplinks]).
Proof.
  cbv zeta. repeat split; try reflexivity.
  - intros [E|[]]; discriminate E.
  - vm_compute. discriminate.
Qed.

(** C6, on the code: a 404 answer with the JSON body
    [{"errors":["not found"]}] does not leave [invoke_meraki] as an
    [HTTPError]: the [except] clause meant for transport failures catches it,
    and the caller receives a plain [Exception], the very kind a refused
    connection gives. *)
Theorem http_error_leaves_as_plain_exception :
  let not_found := Answered (mk_response 404 None not_found_body (Some not_found_json)) in
  invoke_meraki sample_builtins "k" (scripted [] not_found) "GET" uplinks_uri None =
  Some (Raised (PyException
                  ("An error occurred during the request to " ++ uplinks_url
                   ++ ": HTTP 404 at " ++ uplinks_url ++ nl
                   ++ "{'errors': ['not found']}")),
        [Sent get_uplinks])
  /\ (forall msg tr,
        invoke_meraki sample_builtins "k" (scripted [] not_found) "GET" uplinks_uri None <>
        Some (Raised (HTTPError msg), tr))
  /\ invoke_meraki sample_builtins "k" (scripted [] (Failed "Connection refused"))
                   "GET" uplinks_uri None =
     Some (Raised (PyException
                     ("An error occurred during the request to " ++ uplinks_url
                      ++ ": Connection refused")),
           [Sent get_uplinks]).
Proof.
  cbv zeta. split; [reflexivity|]. split; [|reflexivity].
  intros msg tr. vm_compute. discriminate.
Qed.

(** ** More on the executor: every round, every trace *)

Section ExecutorRounds.

Context {J : Type} `{PyValue J}.
Variable py : builtins.
Variable API_KEY : string.
Variable net : nat -> request -> @reply J.

(** Success with a body that does not decode: the [JSONDecodeError] of
    [response.json()] is one of the exceptions of [requests], so it is
    wrapped like a transport failure. *)
Lemma iteration_success_undecodable (method url : string) (data : option J)
    (rq : request) (attempt : nat) (tr : list event) (r : response) (msg : string) :
  request_of py API_KEY method url data = Some rq ->
  net (calls tr) rq = Answered r ->
  200 <= status_code r < 300 ->
  content r <> "" ->
  json r = Undecodable msg ->
  iteration py API_KEY net method url data attempt tr =
  (Raised (PyException ("An error occurred during the request to "
                        ++ url ++ ": " ++ msg)),
   (tr ++ [Sent rq])%list).
Proof.
  intros Hrq Hnet Hst Hc Hj.
  unfold iteration, try_except, try_body, bind.
  rewrite send_request_of, Hrq. unfold perform. rewrite Hnet.
  rewrite not_retried by lia.
  replace ((200 <=? status_code r) && (status_code r <? 300)) with true
    by (symmetry; apply andb_true_iff; split; [apply Z.leb_le|apply Z.ltb_lt]; lia).
  apply truthy_true in Hc. rewrite Hc.
  unfold response_json. rewrite Hj. reflexivity.
Qed.

(** What a round can be, once the method is accepted: a pause after a 429
    with attempts left, a return after a 2xx answer, or an exception that is
    none of [requests]. *)
Lemma iteration_outcome (method url : string) (data : option J)
    (rq : request) (attempt : nat) (tr : list event) :
  request_of py API_KEY method url data = Some rq ->
  exists res last,
    iteration py API_KEY net method url data attempt tr
    = (res, (tr ++ Sent rq :: last)%list)
    /\ ((res = Ok Continue /\ (attempt < max_retries)%nat
         /\ exists r secs, net (calls tr) rq = Answered r /\ status_code r = 429
                           /\ 0 <= secs <= max_sleep
                           /\ last = [Printed (pause_line secs); Slept secs])
        \/ (exists v r, res = Ok (Return v) /\ last = []
                        /\ net (calls tr) rq = Answered r
                        /\ 200 <= status_code r < 300
                        /\ ((content r = "" /\ v = None)
                            \/ (content r <> "" /\ exists j, json r = Decoded j /\ v = Some j)))
        \/ (exists e, res = Raised e /\ as_RequestException e = None
                      /\ (last = []
                          \/ exists secs, (secs < 0 \/ max_sleep < secs)
                                          /\ last = [Printed (pause_line secs)]))).
Proof.
  intros Hrq.
  destruct (net (calls tr) rq) as [r|msg] eqn:Hnet.
  2:{ do 2 eexists. split.
      - apply (iteration_transport_failure py API_KEY net method url data rq attempt tr msg);
          assumption.
      - right; right. eexists. repeat split. now left. }
  destruct (Z.eq_dec (status_code r) 429) as [Hst|Hst];
    [destruct (lt_dec attempt max_retries) as [Hlt|Hlt]|].
  - (* rate limited, attempts left *)
    assert (Hpause : forall secs, backoff_of py r secs -> 0 <= secs <= max_sleep ->
              exists res last,
                iteration py API_KEY net method url data attempt tr
                = (res, (tr ++ Sent rq :: last)%list)
                /\ ((res = Ok Continue /\ (attempt < max_retries)%nat
                     /\ exists r0 secs0, Answered r = Answered r0 /\ status_code r0 = 429
                          /\ 0 <= secs0 <= max_sleep
                          /\ last = [Printed (pause_line secs0); Slept secs0])
                    \/ (exists v r0, res = Ok (Return v) /\ last = []
                          /\ Answered r = Answered r0
                          /\ 200 <= status_code r0 < 300
                          /\ ((content r0 = "" /\ v = None)
                              \/ (content r0 <> ""
                                  /\ exists j, json r0 = Decoded j /\ v = Some j)))
                    \/ (exists e, res = Raised e /\ as_RequestException e = None
                          /\ (last = []
                              \/ exists secs0, (secs0 < 0 \/ max_sleep < secs0)
                                               /\ last = [Printed (pause_line secs0)])))).
    { intros secs Hb Hnn. do 2 eexists. split.
      - apply (iteration_rate_limited py API_KEY net method url data rq attempt tr r secs);
          assumption.
      - left. split; [reflexivity|]. split; [assumption|]. exists r, secs.
        split; [reflexivity|]. split; [assumption|]. split; [exact Hnn|reflexivity]. }
    destruct (headers_get r "Retry-After") as [s|] eqn:Hh.
    + destruct (string_dec s "") as [->|Hne].
      * apply (Hpause 2); [right; left; now split|unfold max_sleep; lia].
      * destruct (str_int py s) as [n|] eqn:Hint.
        -- destruct (Z_le_dec 0 n) as [Hnn|Hneg];
             [destruct (Z_le_dec n max_sleep) as [Hfit|Hbig]|].
           ++ apply (Hpause n); [|lia]. right; right. exists s.
              split; [exact Hh|]. split; [assumption|]. split; [assumption|lia].
           ++ destruct (iteration_refused_sleep
                          py API_KEY net method url data rq attempt tr r s n)
                as (e & Hit & He); try assumption; [lia|].
              do 2 eexists. split; [exact Hit|].
              right; right. exists e. split; [reflexivity|]. split.
              ** destruct He as [[_ ->]|[_ ->]]; reflexivity.
              ** right. exists n. split; [lia|reflexivity].
           ++ destruct (iteration_refused_sleep
                          py API_KEY net method url data rq attempt tr r s n)
                as (e & Hit & He); try assumption; [lia|].
              do 2 eexists. split; [exact Hit|].
              right; right. exists e. split; [reflexivity|]. split.
              ** destruct He as [[_ ->]|[_ ->]]; reflexivity.
              ** right. exists n. split; [lia|reflexivity].
        -- do 2 eexists. split.
           ++ apply (iteration_bad_literal py API_KEY net method url data rq attempt tr r s);
                assumption.
           ++ right; right. eexists. repeat split. now left.
    + apply (Hpause 2); [left; now split|unfold max_sleep; lia].
  - (* a 429 with no attempt left *)
    do 2 eexists. split.
    + apply (iteration_http_error py API_KEY net method url data rq attempt tr r);
        [assumption|assumption|tauto|lia].
    + right; right. eexists. repeat split. now left.
  - destruct (Z_le_dec 200 (status_code r)) as [Hlo|Hlo];
      [destruct (Z_lt_dec (status_code r) 300) as [Hhi|Hhi]|].
    + (* success *)
      destruct (string_dec (content r) "") as [Hc|Hc].
      * do 2 eexists. split.
        -- apply (iteration_success_empty py API_KEY net method url data rq attempt tr r);
             [assumption|assumption|lia|assumption].
        -- right; left. exists None, r. repeat split; try lia. now left.
      * destruct (json r) as [j|msg] eqn:Hj.
        -- do 2 eexists. split.
           ++ apply (iteration_success_json py API_KEY net method url data rq attempt tr r j);
                [assumption|assumption|lia|assumption|assumption].
           ++ right; left. exists (Some j), r. repeat split; try lia.
              right. split; [assumption|]. now exists j.
        -- do 2 eexists. split.
           ++ apply (iteration_success_undecodable method url data rq attempt tr r msg);
                [assumption|assumption|lia|assumption|assumption].
           ++ right; right. eexists. repeat split. now left.
    + do 2 eexists. split.
      * apply (iteration_http_error py API_KEY net method url data rq attempt tr r);
          [assumption|assumption|tauto|lia].
      * right; right. eexists. repeat split. now left.
    + do 2 eexists. split.
      * apply (iteration_http_error py API_KEY net method url data rq attempt tr r);
          [assumption|assumption|tauto|lia].
      * right; right. eexists. repeat split. now left.
Qed.

(** The loop, once the method is accepted: pauses while attempts are left,
    then one last call. *)
Lemma retry_loop_trace (method url : string) (data : option J) (rq : request)
    (fuel : nat) :
  request_of py API_KEY method url data = Some rq ->
  forall (attempt : nat) (tr tr' : list event) res,
    retry_loop py API_KEY net fuel method url data attempt tr = Some (res, tr') ->
    exists pauses last,
      (length pauses <= max_retries - S attempt)%nat
      /\ Forall (fun secs => 0 <= secs <= max_sleep) pauses
      /\ tr' = (tr ++ concat (map (pause_round rq) pauses) ++ Sent rq :: last)%list
      /\ (last = []
          \/ exists secs, (secs < 0 \/ max_sleep < secs)
                          /\ last = [Printed (pause_line secs)]).
Proof.
  intros Hrq. induction fuel as [|fuel IH]; intros attempt tr tr' res; [discriminate|].
  cbn [retry_loop].
  destruct (iteration_outcome method url data rq (S attempt) tr Hrq)
    as (r1 & last & -> & Hcases).
  destruct Hcases as [(-> & Hlt & r & secs & _ & _ & Hnn & ->)
                     |[(v & r & -> & -> & _)|(e & -> & _ & Hlast)]].
  - intros Hloop. apply IH in Hloop as (pauses & last & Hlen & Hall & -> & Hlast).
    exists (secs :: pauses), last. repeat split.
    + cbn [length]. unfold max_retries in *. lia.
    + now constructor.
    + cbn [map concat]. unfold pause_round at 2. cbn [app].
      now rewrite <- !app_assoc.
    + exact Hlast.
  - intros [= <- <-]. exists [], []. repeat split; [cbn; lia|constructor|now left].
  - intros [= <- <-]. exists [], last. repeat split; [cbn; lia|constructor|exact Hlast].
Qed.

Lemma sent_requests_app (tr1 tr2 : list event) :
  sent_requests (tr1 ++ tr2) = (sent_requests tr1 ++ sent_requests tr2)%list.
Proof. unfold sent_requests. apply omap_app. Qed.

Lemma sent_requests_rounds (rq : request) (pauses : list Z) :
  sent_requests (concat (map (pause_round rq) pauses)) = repeat rq (length pauses).
Proof.
  induction pauses as [|secs pauses IH]; [reflexivity|].
  cbn [map concat]. rewrite sent_requests_app, IH. reflexivity.
Qed.

(** The request of an accepted method: the URL and the headers are the
    configured ones, GET and DELETE carry no body, and a body is the JSON
    text of a truthy [data]. *)
Lemma request_of_fields (method url : string) (data : option J) (rq : request) :
  request_of py API_KEY method url data = Some rq ->
  rq_url rq = url
  /\ rq_headers rq = HEADERS API_KEY
  /\ (rq_verb rq = GET \/ rq_verb rq = DELETE -> rq_data rq = None)
  /\ (forall body, rq_data rq = Some body ->
        exists d, data = Some d /\ py_truthy d = true /\ json_dumps d = Some body).
Proof.
  assert (Hbody : forall body, dumps_if data = Ok (Some body) ->
            exists d, data = Some d /\ py_truthy d = true /\ json_dumps d = Some body).
  { intros body. unfold dumps_if. destruct data as [d|]; [|discriminate].
    destruct (py_truthy d) eqn:Ht; [|discriminate].
    destruct (json_dumps d) as [b|] eqn:Hd; [|discriminate].
    intros [= <-]. now exists d. }
  unfold request_of.
  destruct (String.eqb (str_upper py method) "GET").
  { intros [= <-]; cbn; repeat split; try reflexivity; discriminate. }
  destruct (String.eqb (str_upper py method) "POST").
  { destruct (dumps_if data) as [b|e] eqn:Hd; [|discriminate].
    intros [= <-]; cbn; repeat split; try reflexivity;
      try (intros [E|E]; discriminate E).
    intros body ->. now apply Hbody. }
  destruct (String.eqb (str_upper py method) "PUT").
  { destruct (dumps_if data) as [b|e] eqn:Hd; [|discriminate].
    intros [= <-]; cbn; repeat split; try reflexivity;
      try (intros [E|E]; discriminate E).
    intros body ->. now apply Hbody. }
  destruct (String.eqb (str_upper py method) "DELETE").
  { intros [= <-]; cbn; repeat split; try reflexivity; discriminate. }
  discriminate.
Qed.

(** *** What every call of [invoke_meraki] does *)

(** The whole trace of a call: nothing at all when no request can be made
    (the method is refused, or [json.dumps] raised); otherwise at most four
    rounds "send, announce, sleep", each with a pause that [time.sleep]
    accepts, then one last send of the same request, followed by nothing
    or, when [time.sleep] refused the pause (negative, or too long for its
    clock), by the announcement alone. *)
Theorem invoke_meraki_trace_shape (method uri : string) (data : option J) :
  exists res tr,
    invoke_meraki py API_KEY net method uri data = Some (res, tr)
    /\ ((request_of py API_KEY method (BASE_URL ++ uri) data = None /\ tr = [])
        \/ exists rq pauses last,
             request_of py API_KEY method (BASE_URL ++ uri) data = Some rq
             /\ (length pauses < max_retries)%nat
             /\ Forall (fun secs => 0 <= secs <= max_sleep) pauses
             /\ tr = (concat (map (pause_round rq) pauses) ++ Sent rq :: last)%list
             /\ (last = []
                 \/ exists secs, (secs < 0 \/ max_sleep < secs)
                                 /\ last = [Printed (pause_line secs)])).
Proof.
  unfold invoke_meraki, invoke_meraki_fuel.
  destruct (retry_loop_total py API_KEY net method (BASE_URL ++ uri) data max_retries 0 [])
    as (res & tr & Hrun); [unfold max_retries; lia..|].
  exists res, tr. split; [exact Hrun|].
  destruct (request_of py API_KEY method (BASE_URL ++ uri) data) as [rq|] eqn:Hrq.
  - right.
    destruct (retry_loop_trace method (BASE_URL ++ uri) data rq max_retries Hrq
                               0%nat [] tr res Hrun)
      as (pauses & last & Hlen & Hall & Htr & Hlast).
    exists rq, pauses, last. repeat split; try assumption.
    unfold max_retries in *. lia.
  - left. split; [reflexivity|].
    unfold max_retries in Hrun. cbn [retry_loop] in Hrun.
    rewrite iteration_unsupported in Hrun by assumption.
    now injection Hrun as _ <-.
Qed.

(** Every network call of one invocation is the same request: it goes to
    [BASE_URL + uri] with the configured headers; GET and DELETE never carry
    a body, and a body, when there is one, is [json.dumps] of a truthy
    [data]. *)
Theorem invoke_meraki_requests (method uri : string) (data : option J) :
  exists res tr,
    invoke_meraki py API_KEY net method uri data = Some (res, tr)
    /\ forall rq, In rq (sent_requests tr) ->
         rq_url rq = BASE_URL ++ uri
         /\ rq_headers rq = HEADERS API_KEY
         /\ (rq_verb rq = GET \/ rq_verb rq = DELETE -> rq_data rq = None)
         /\ (forall body, rq_data rq = Some body ->
               exists d, data = Some d /\ py_truthy d = true
                         /\ json_dumps d = Some body)
         /\ (forall rq', In rq' (sent_requests tr) -> rq' = rq).
Proof.
  unfold invoke_meraki, invoke_meraki_fuel.
  destruct (retry_loop_total py API_KEY net method (BASE_URL ++ uri) data max_retries 0 [])
    as (res & tr & Hrun); [unfold max_retries; lia..|].
  exists res, tr. split; [exact Hrun|].
  destruct (request_of py API_KEY method (BASE_URL ++ uri) data) as [rq0|] eqn:Hrq.
  - destruct (retry_loop_trace method (BASE_URL ++ uri) data rq0 max_retries Hrq
                               0%nat [] tr res Hrun)
      as (pauses & last & _ & _ & Htr & Hlast).
    cbn [app] in Htr.
    assert (Hsent : forall rq, In rq (sent_requests tr) -> rq = rq0).
    { intros rq. rewrite Htr.
      change (Sent rq0 :: last) with ([Sent rq0] ++ last)%list.
      rewrite !sent_requests_app, sent_requests_rounds.
      replace (sent_requests last) with (@nil request)
        by (destruct Hlast as [->|(secs & _ & ->)]; reflexivity).
      rewrite app_nil_r. intros Hin. apply in_app_or in Hin as [Hin|[Hin|[]]].
      - now apply repeat_spec in Hin.
      - now symmetry. }
    intros rq Hin. apply Hsent in Hin as ->.
    destruct (request_of_fields method _ data rq0 Hrq) as (Hu & Hh & Hg & Hb).
    repeat split; assumption.
  - unfold max_retries in Hrun. cbn [retry_loop] in Hrun.
    rewrite iteration_unsupported in Hrun by assumption.
    injection Hrun as _ <-. intros rq [].
Qed.

(** A value is returned only from an answer with a status in [200, 300),
    the answer to the last call made: [None] when its body is empty, the
    decoded body otherwise. *)
Theorem invoke_meraki_returns_only_2xx (method uri : string) (data : option J)
    (v : option J) (tr : list event) :
  invoke_meraki py API_KEY net method uri data = Some (Ok v, tr) ->
  exists rq r,
    request_of py API_KEY method (BASE_URL ++ uri) data = Some rq
    /\ net (calls tr - 1) rq = Answered r
    /\ 200 <= status_code r < 300
    /\ ((content r = "" /\ v = None)
        \/ (content r <> "" /\ exists j, json r = Decoded j /\ v = Some j)).
Proof.
  unfold invoke_meraki, invoke_meraki_fuel.
  generalize max_retries as fuel.
  enough (Hloop : forall fuel attempt tr0,
            retry_loop py API_KEY net fuel method (BASE_URL ++ uri) data attempt tr0
            = Some (Ok v, tr) ->
            exists rq r,
              request_of py API_KEY method (BASE_URL ++ uri) data = Some rq
              /\ net (calls tr - 1) rq = Answered r
              /\ 200 <= status_code r < 300
              /\ ((content r = "" /\ v = None)
                  \/ (content r <> "" /\ exists j, json r = Decoded j /\ v = Some j)))
    by (intros fuel; apply Hloop).
  induction fuel as [|fuel IH]; intros attempt tr0; [discriminate|].
  cbn [retry_loop].
  destruct (request_of py API_KEY method (BASE_URL ++ uri) data) as [rq|] eqn:Hrq.
  2:{ rewrite iteration_unsupported by assumption. discriminate. }
  destruct (iteration_outcome method _ data rq (S attempt) tr0 Hrq)
    as (r1 & last & -> & Hcases).
  destruct Hcases as [(-> & _)|[(v' & r & -> & -> & Hnet & Hst & Hv)|(e & -> & _)]].
  - intros Hloop. apply IH in Hloop as (rq' & r & Hrq' & Hrest).
    exists rq', r. split; [assumption|exact Hrest].
  - intros [= <- <-]. exists rq, r. split; [reflexivity|].
    rewrite calls_app. change (calls [Sent rq]) with 1%nat.
    replace (calls tr0 + 1 - 1)%nat with (calls tr0) by lia.
    repeat split; try assumption; lia.
  - discriminate.
Qed.

(** No exception of [requests] leaves [invoke_meraki]: not the
    [HTTPError] built for an error response, not the [JSONDecodeError] of
    [response.json()], not a transport failure; the [except] clause turns
    each of them into a plain [Exception]. *)
Theorem invoke_meraki_raises_no_requests_exception
    (method uri : string) (data : option J) (e : exn) (tr : list event) :
  invoke_meraki py API_KEY net method uri data = Some (Raised e, tr) ->
  (forall msg, e <> HTTPError msg)
  /\ (forall msg, e <> RequestException msg)
  /\ (forall msg, e <> JSONDecodeError msg).
Proof.
  unfold invoke_meraki, invoke_meraki_fuel. intros Hrun.
  apply retry_loop_no_RequestException in Hrun.
  repeat split; intros msg ->; discriminate Hrun.
Qed.

(** The method is read without regard to case: two spellings with the same
    upper-case form, when that form is accepted, give the same outcome and
    the same trace. *)
Theorem invoke_meraki_method_case (m1 m2 uri : string) (data : option J) :
  str_upper py m1 = str_upper py m2 ->
  In (str_upper py m1) ["GET"; "POST"; "PUT"; "DELETE"] ->
  invoke_meraki py API_KEY net m1 uri data = invoke_meraki py API_KEY net m2 uri data.
Proof.
  intros Hup Hin.
  assert (Hsend : forall url, send py API_KEY net m1 url data = send py API_KEY net m2 url data).
  { intros url. unfold send. rewrite <- Hup.
    destruct Hin as [E|[E|[E|[E|[]]]]]; rewrite <- E; reflexivity. }
  assert (Hit : forall url attempt,
            iteration py API_KEY net m1 url data attempt
            = iteration py API_KEY net m2 url data attempt).
  { intros url attempt. unfold iteration, try_body. now rewrite Hsend. }
  unfold invoke_meraki, invoke_meraki_fuel.
  generalize max_retries as fuel.
  enough (Hloop : forall fuel attempt tr0,
            retry_loop py API_KEY net fuel m1 (BASE_URL ++ uri) data attempt tr0
            = retry_loop py API_KEY net fuel m2 (BASE_URL ++ uri) data attempt tr0)
    by (intros fuel; apply Hloop).
  induction fuel as [|fuel IH]; intros attempt tr0; [reflexivity|].
  cbn [retry_loop]. rewrite Hit.
  destruct (iteration py API_KEY net m2 (BASE_URL ++ uri) data (S attempt) tr0)
    as [[[|v]|e] tr1]; auto.
Qed.

End ExecutorRounds.

(** ** [format_table] *)

Lemma length_append (a b : string) :
  String.length (a ++ b) = (String.length a + String.length b)%nat.
Proof.
  induction a as [|c a IH]; [reflexivity|].
  change (S (String.length (a ++ b)) = S (String.length a + String.length b)).
  now rewrite IH.
Qed.

Lemma length_str_times (s : string) (n : nat) :
  String.length (str_times s n) = (n * String.length s)%nat.
Proof.
  induction n as [|n IH]; [reflexivity|].
  cbn [str_times]. rewrite length_append, IH. lia.
Qed.

Lemma length_ljust (s : string) (width : nat) :
  String.length (ljust s width) = Nat.max (String.length s) width.
Proof.
  unfold ljust. rewrite length_append, length_str_times.
  change (String.length " ") with 1%nat. lia.
Qed.

(** The length of a joined line: the parts, and a separator between any
    two. *)
Lemma length_join (sep : string) (parts : list string) :
  String.length (join sep parts) =
  (list_sum (map String.length parts)
   + String.length sep * (List.length parts - 1))%nat.
Proof.
  induction parts as [|p rest IH]; [cbn; lia|].
  destruct rest as [|q rest].
  - cbn. lia.
  - change (join sep (p :: q :: rest)) with (p ++ sep ++ join sep (q :: rest)).
    rewrite !length_append, IH. cbn [map List.length].
    replace (S (List.length rest) - 1)%nat with (List.length rest) by lia.
    replace (S (S (List.length rest)) - 1)%nat with (S (List.length rest)) by lia.
    rewrite Nat.mul_succ_r. simpl list_sum. lia.
Qed.

Section TableFacts.

Context {J : Type} `{PyValue J}.

(** One row widens the columns it is asked about, and no other key. *)
Lemma widen_cols_lookup (row : gmap string J) (cols : list (string * string)) :
  NoDup (map fst cols) ->
  forall (w : gmap string nat) (key : string),
    foldl (widen row) w cols !!! key =
    if decide (key ∈ map fst cols)
    then Nat.max (w !!! key) (String.length (cell row key))
    else w !!! key.
Proof.
  induction cols as [|col cols IH]; intros Hnd w key.
  - cbn. destruct (decide (key ∈ [])) as [Hin|_]; [inversion Hin|reflexivity].
  - cbn [foldl map] in *. apply NoDup_cons in Hnd as [Hnotin Hnd].
    rewrite (IH Hnd). unfold widen.
    destruct (decide (key = col.1)) as [->|Hne].
    + rewrite lookup_total_insert_eq.
      destruct (decide (col.1 ∈ map fst cols)) as [Hin|_]; [contradiction|].
      destruct (decide (col.1 ∈ col.1 :: map fst cols)) as [_|Hout];
        [reflexivity|exfalso; apply Hout; left].
    + rewrite lookup_total_insert_ne by congruence.
      destruct (decide (key ∈ map fst cols)) as [Hin|Hout];
        destruct (decide (key ∈ col.1 :: map fst cols)) as [Hin'|Hout'];
        try reflexivity.
      * exfalso. apply Hout'. now right.
      * exfalso. apply elem_of_cons in Hin' as [E|Hin']; contradiction.
Qed.

Lemma columns_NoDup : NoDup (map fst columns).
Proof. apply (bool_decide_unpack _). vm_compute. exact I. Qed.

Lemma widths_fold (data_list : list (gmap string J)) :
  forall (w : gmap string nat) (key : string),
    key ∈ map fst columns ->
    foldl (fun w row => foldl (widen row) w columns) w data_list !!! key =
    Nat.max (w !!! key)
            (max_list_with (fun row => String.length (cell row key)) data_list).
Proof.
  induction data_list as [|row rows IH]; intros w key Hkey.
  - cbn. lia.
  - cbn [foldl max_list_with]. rewrite (IH _ key Hkey).
    rewrite (widen_cols_lookup row columns columns_NoDup).
    destruct (decide (key ∈ map fst columns)) as [_|Hout]; [lia|contradiction].
Qed.

Lemma header_widths_lookup (key header : string) :
  In (key, header) columns -> header_widths !!! key = String.length header.
Proof.
  intros Hin. repeat (destruct Hin as [[= <- <-]|Hin]; [vm_compute; reflexivity|]).
  destruct Hin.
Qed.

Lemma columns_key (key header : string) :
  In (key, header) columns -> key ∈ map fst columns.
Proof.
  intros Hin. apply list_elem_of_In. apply (in_map fst) in Hin. exact Hin.
Qed.

Lemma col_widths_lookup (data_list : list (gmap string J)) (key header : string) :
  In (key, header) columns ->
  col_widths data_list !!! key =
  Nat.max (String.length header)
          (max_list_with (fun row => String.length (cell row key)) data_list).
Proof.
  intros Hin. unfold col_widths.
  rewrite (widths_fold data_list header_widths key (columns_key key header Hin)).
  now rewrite (header_widths_lookup key header Hin).
Qed.

Lemma max_list_with_ge {A : Type} (f : A -> nat) (l : list A) (x : A) :
  In x l -> (f x <= max_list_with f l)%nat.
Proof.
  induction l as [|y l IH]; intros Hin; [destruct Hin|].
  cbn [max_list_with]. destruct Hin as [->|Hin]; [lia|].
  specialize (IH Hin). lia.
Qed.

Lemma max_list_with_attained {A : Type} (f : A -> nat) (l : list A) :
  max_list_with f l = 0%nat \/ exists x, In x l /\ max_list_with f l = f x.
Proof.
  induction l as [|y l IH]; [now left|].
  cbn [max_list_with].
  destruct (Nat.max_spec (f y) (max_list_with f l)) as [[_ ->]|[_ ->]].
  - destruct IH as [E|(x & Hx & E)]; [left; exact E|].
    right. exists x. split; [now right|exact E].
  - right. exists y. split; [now left|reflexivity].
Qed.

(** The width of a column is the length of its header or of the longest
    cell under it, whichever is larger: the header and every cell fit, so
    nothing is cut, and the width is the length of one of them, so no
    column is wider than it has to be. *)
Theorem col_widths_exact (data_list : list (gmap string J)) (key header : string) :
  In (key, header) columns ->
  (String.length header <= col_widths data_list !!! key)%nat
  /\ (forall row, In row data_list ->
        (String.length (cell row key) <= col_widths data_list !!! key)%nat)
  /\ (col_widths data_list !!! key = String.length header
      \/ exists row, In row data_list
                     /\ col_widths data_list !!! key = String.length (cell row key)).
Proof.
  intros Hin. rewrite (col_widths_lookup data_list key header Hin).
  split; [lia|]. split.
  - intros row Hrow.
    pose proof (max_list_with_ge (fun r => String.length (cell r key))
                                 data_list row Hrow) as Hge.
    cbn beta in Hge. lia.
  - destruct (Nat.max_spec (String.length header)
                (max_list_with (fun row => String.length (cell row key)) data_list))
      as [[Hlt ->]|[_ ->]]; [|now left].
    destruct (max_list_with_attained (fun row => String.length (cell row key)) data_list)
      as [E|(row & Hrow & E)]; [lia|].
    right. exists row. split; [exact Hrow|exact E].
Qed.

(** Every line of the table is made of seven cells joined by two spaces,
    and the cell of a column is exactly as long as the column is wide, on
    the header line, on the separator and on every data line: the columns
    are aligned and all the lines have the same length. *)
Theorem table_lines_aligned (data_list : list (gmap string J)) (line : string) :
  In line (table_lines data_list) ->
  exists cells,
    line = join "  " cells
    /\ map String.length cells
       = map (fun col => col_widths data_list !!! col.1) columns
    /\ String.length line
       = (list_sum (map (fun col => col_widths data_list !!! col.1) columns) + 12)%nat.
Proof.
  intros Hin.
  assert (Hlen : forall cells,
            map String.length cells
            = map (fun col => col_widths data_list !!! col.1) columns ->
            String.length (join "  " cells)
            = (list_sum (map (fun col => col_widths data_list !!! col.1) columns)
               + 12)%nat).
  { intros cells Hcells. rewrite length_join, Hcells.
    assert (Hn : List.length cells = 7%nat).
    { rewrite <- (length_map String.length cells), Hcells, length_map.
      reflexivity. }
    rewrite Hn. reflexivity. }
  assert (Hhdr : forall key header, In (key, header) columns ->
            (String.length header <= col_widths data_list !!! key)%nat).
  { intros key header Hc. rewrite (col_widths_lookup data_list key header Hc). lia. }
  unfold table_lines in Hin. cbv zeta in Hin.
  destruct Hin as [<-|[<-|Hin]].
  - eexists. split; [reflexivity|]. split; [|apply Hlen]; rewrite map_map;
      apply map_ext_in; intros [key header] Hc; cbn [fst snd];
      rewrite length_ljust; specialize (Hhdr key header Hc); lia.
  - eexists. split; [reflexivity|]. split; [|apply Hlen]; rewrite map_map;
      apply map_ext_in; intros [key header] Hc; cbn [fst snd];
      rewrite length_str_times; change (String.length "-") with 1%nat; lia.
  - apply in_map_iff in Hin as (row & <- & Hrow).
    assert (Hcell : forall key header, In (key, header) columns ->
              (String.length (cell row key) <= col_widths data_list !!! key)%nat).
    { intros key header Hc. rewrite (col_widths_lookup data_list key header Hc).
      pose proof (max_list_with_ge (fun r => String.length (cell r key))
                                   data_list row Hrow) as Hge.
      cbn beta in Hge. lia. }
    eexists. split; [reflexivity|]. split; [|apply Hlen]; rewrite map_map;
      apply map_ext_in; intros [key header] Hc; cbn [fst snd];
      rewrite length_ljust; specialize (Hcell key header Hc); lia.
Qed.

End TableFacts.

(** An empty result is printed for no rows only. *)
Theorem format_table_empty_iff {J : Type} `{PyValue J}
    (data_list : list (gmap string J)) :
  format_table data_list = "" <-> data_list = [].
Proof.
  split; [|intros ->; reflexivity].
  destruct data_list as [|row rows]; [reflexivity|].
  intros Hempty. apply (f_equal String.length) in Hempty.
  unfold format_table, table_lines in Hempty. cbv zeta in Hempty.
  set (w := col_widths (row :: rows)) in Hempty.
  change (join nl (header_line w :: separator_line w :: map (data_line w) (row :: rows)))
    with (header_line w ++ nl
          ++ join nl (separator_line w :: map (data_line w) (row :: rows)))
    in Hempty.
  rewrite !length_append in Hempty.
  change (String.length nl) with 1%nat in Hempty.
  change (String.length "") with 0%nat in Hempty. lia.
Qed.

(** ** The rows of the script *)

Module ScriptFacts.

Import Sample Script.

Lemma collect_in {A : Type} (body : A -> script_error + list (gmap string pyval))
    (l : list A) :
  forall rows row,
    collect body l = inr rows -> In row rows ->
    exists x rs, In x l /\ body x = inr rs /\ In row rs.
Proof.
  induction l as [|x l IH]; intros rows row.
  - intros [= <-] [].
  - cbn [collect]. destruct (body x) as [e|rs] eqn:Hx; [discriminate|].
    destruct (collect body l) as [e|more] eqn:Hl; [discriminate|].
    intros [= <-] Hin. apply in_app_or in Hin as [Hin|Hin].
    + exists x, rs. split; [now left|split; assumption].
    + destruct (IH more row eq_refl Hin) as (y & rs' & Hy & Hby & Hrow).
      exists y, rs'. split; [now right|split; assumption].
Qed.

Lemma collect_fails {A : Type} (body : A -> script_error + list (gmap string pyval))
    (l : list A) (x : A) (e : script_error) :
  In x l -> body x = inl e -> exists e', collect body l = inl e'.
Proof.
  induction l as [|y l IH]; intros Hin Hx; [destruct Hin|].
  cbn [collect]. destruct Hin as [->|Hin].
  - rewrite Hx. eauto.
  - destruct (body y) as [e1|rs]; [eauto|].
    destruct (IH Hin Hx) as [e' ->]. eauto.
Qed.

Lemma collect_app {A : Type} (body : A -> script_error + list (gmap string pyval))
    (l1 l2 : list A) (r1 r2 : list (gmap string pyval)) :
  collect body l1 = inr r1 -> collect body l2 = inr r2 ->
  collect body (l1 ++ l2) = inr (r1 ++ r2)%list.
Proof.
  revert r1. induction l1 as [|x l1 IH]; intros r1.
  - intros [= <-] H2. exact H2.
  - cbn [collect app]. destruct (body x) as [e|rs]; [discriminate|].
    destruct (collect body l1) as [e|more]; [discriminate|].
    intros [= <-] H2. rewrite (IH more eq_refl H2). now rewrite app_assoc.
Qed.

(** For a list, the test [if data] changes nothing: the loop over an empty
    list appends nothing. *)
Lemma build_rows_list (devices : list pyval) :
  build_rows (Some (VList devices)) = collect device_rows devices.
Proof. destruct devices; reflexivity. Qed.

(** The row made for an uplink. *)
Lemma uplink_rows_in (d : list (string * pyval)) (uplink : pyval)
    (rs : list (gmap string pyval)) (row : gmap string pyval) :
  uplink_rows d uplink = inr rs -> In row rs ->
  exists u s st,
    uplink = VDict u
    /\ dict_get_or u "interface" (VStr "") = VStr s
    /\ (PyStr.lower s = "wan1" \/ PyStr.lower s = "wan2")
    /\ dict_get_or u "status" (VStr "unknown") = VStr st
    /\ row = make_row d u (PyStr.lower s) st.
Proof.
  unfold uplink_rows. destruct uplink as [| | |l|u]; try discriminate.
  destruct (dict_get_or u "interface" (VStr "")) as [| |s| |] eqn:Hi; try discriminate.
  destruct (String.eqb_spec (PyStr.lower s) "wan1") as [E1|E1];
    [|destruct (String.eqb_spec (PyStr.lower s) "wan2") as [E2|E2]];
    cbn [orb];
    try (destruct (dict_get_or u "status" (VStr "unknown")) as [| |st| |] eqn:Hs;
         try discriminate;
         intros [= <-] [<-|[]]; exists u, s, st; repeat split; tauto).
  intros [= <-] [].
Qed.

Lemma in_network_id (d : list (string * pyval)) :
  in_network d = true -> get_or_none d "networkId" = VStr NETWORK_ID.
Proof.
  unfold in_network, get_or_none, dict_get_or.
  destruct (dict_get d "networkId") as [[| |s| |]|]; try discriminate.
  intros E. apply String.eqb_eq in E. now subst.
Qed.

(** What a row holds. *)
Lemma make_row_fields (d u : list (string * pyval)) (interface raw_status : string) :
  let row := make_row d u interface raw_status in
  row !! "organizationId" = Some (VInt ORG_ID)
  /\ row !! "networkId" = Some (get_or_none d "networkId")
  /\ row !! "interface" = Some (VStr (PyStr.upper interface))
  /\ row !! "statusRaw" = Some (VStr raw_status)
  /\ row !! "statusInternet" = Some (VStr (classify_status raw_status))
  /\ (forall key header, In (key, header) columns -> is_Some (row !! key)).
Proof.
  cbv zeta. repeat (split; [vm_compute; reflexivity|]).
  intros key header Hc.
  repeat (destruct Hc as [[= <- <-]|Hc]; [eexists; vm_compute; reflexivity|]).
  destruct Hc.
Qed.

(** Every row that the script builds belongs to the configured
    organization and network, is for WAN1 or WAN2, carries the raw status
    as a string together with its classification, and has a value under
    each of the seven columns of the table. *)
Theorem build_rows_row (data : option pyval) (rows : list (gmap string pyval))
    (row : gmap string pyval) :
  build_rows data = inr rows ->
  In row rows ->
  row !! "organizationId" = Some (VInt ORG_ID)
  /\ row !! "networkId" = Some (VStr NETWORK_ID)
  /\ (row !! "interface" = Some (VStr "WAN1") \/ row !! "interface" = Some (VStr "WAN2"))
  /\ (exists st, row !! "statusRaw" = Some (VStr st)
                 /\ row !! "statusInternet" = Some (VStr (classify_status st)))
  /\ (forall key header, In (key, header) columns -> is_Some (row !! key)).
Proof.
  intros Hbuild Hrow.
  assert (Hdev : exists devices, collect device_rows devices = inr rows).
  { unfold build_rows in Hbuild. destruct data as [v|]; [|injection Hbuild as <-; destruct Hrow].
    destruct (truthy v); [|injection Hbuild as <-; destruct Hrow].
    destruct (iterate v) as [e|devices]; [discriminate|]. eauto. }
  destruct Hdev as [devices Hdev].
  destruct (collect_in device_rows devices rows row Hdev Hrow)
    as (x & rs & _ & Hx & Hin).
  unfold device_rows in Hx. destruct x as [| | |l|d]; try discriminate.
  destruct (in_network d) eqn:Hnet; [|injection Hx as <-; destruct Hin].
  destruct (iterate (dict_get_or d "uplinks" (VList []))) as [e|ups];
    [discriminate|].
  destruct (collect_in (uplink_rows d) ups rs row Hx Hin)
    as (uplink & rs' & _ & Hup & Hin').
  destruct (uplink_rows_in d uplink rs' row Hup Hin')
    as (u & s & st & _ & _ & Hwan & _ & ->).
  apply in_network_id in Hnet.
  destruct (make_row_fields d u (PyStr.lower s) st) as (Ho & Hn & Hi & Hr & Hc & Hall).
  split; [exact Ho|]. split; [now rewrite Hn, Hnet|]. split.
  { rewrite Hi. destruct Hwan as [-> | ->]; [left|right]; reflexivity. }
  split; [exists st; now split|exact Hall].
Qed.

(** Devices of other networks leave no trace in the result, whatever
    their uplinks hold: among dictionaries, the rows (or the error) are those
    of the devices of the configured network alone. *)
Theorem other_networks_are_ignored (devices : list pyval) :
  (forall x, In x devices -> exists d, x = VDict d) ->
  build_rows (Some (VList devices))
  = build_rows (Some (VList (List.filter of_network devices))).
Proof.
  rewrite !build_rows_list.
  induction devices as [|x devices IH]; intros Hdict; [reflexivity|].
  destruct (Hdict x (or_introl eq_refl)) as [d ->].
  assert (IH' := IH (fun y Hy => Hdict y (or_intror Hy))).
  cbn [List.filter of_network]. destruct (in_network d) eqn:Hnet.
  - cbn [collect]. now rewrite IH'.
  - cbn [collect device_rows]. rewrite Hnet, IH'.
    destruct (collect device_rows (List.filter of_network devices)); reflexivity.
Qed.

(** One WAN uplink of the configured network whose status is present but
    is not a string (a JSON null, say) makes the whole step fail: no row
    is produced at all. *)
Theorem non_string_status_fails (devices ups : list pyval)
    (d u : list (string * pyval)) (s : string) (v : pyval) :
  In (VDict d) devices ->
  in_network d = true ->
  dict_get d "uplinks" = Some (VList ups) ->
  In (VDict u) ups ->
  dict_get u "interface" = Some (VStr s) ->
  PyStr.lower s = "wan1" \/ PyStr.lower s = "wan2" ->
  dict_get u "status" = Some v ->
  (forall st, v <> VStr st) ->
  exists e, build_rows (Some (VList devices)) = inl e.
Proof.
  intros Hd Hnet Hups Hu Hi Hwan Hs Hv.
  rewrite build_rows_list.
  assert (Hrow : uplink_rows d (VDict u) = inl AttributeError).
  { unfold uplink_rows, dict_get_or. rewrite Hi, Hs.
    replace (String.eqb (PyStr.lower s) "wan1" || String.eqb (PyStr.lower s) "wan2")
      with true by (destruct Hwan as [-> | ->]; reflexivity).
    destruct v; try reflexivity. now destruct (Hv s0). }
  assert (Hdev : exists e, device_rows (VDict d) = inl e).
  { unfold device_rows, dict_get_or. rewrite Hnet, Hups. cbn [iterate].
    apply (collect_fails (uplink_rows d) ups (VDict u) AttributeError Hu Hrow). }
  destruct Hdev as [e He].
  apply (collect_fails device_rows devices (VDict d) e Hd He).
Qed.

(** An uplink without a status gets the raw status [unknown], which is
    classified FALHA. *)
Theorem missing_status_is_unknown (d u : list (string * pyval)) (s : string) :
  in_network d = true ->
  dict_get d "uplinks" = Some (VList [VDict u]) ->
  dict_get u "interface" = Some (VStr s) ->
  PyStr.lower s = "wan1" \/ PyStr.lower s = "wan2" ->
  dict_get u "status" = None ->
  exists row,
    build_rows (Some (VList [VDict d])) = inr [row]
    /\ row !! "statusRaw" = Some (VStr "unknown")
    /\ row !! "statusInternet" = Some (VStr "FALHA").
Proof.
  intros Hnet Hups Hi Hwan Hs.
  exists (make_row d u (PyStr.lower s) "unknown"). split; [|split; reflexivity].
  rewrite build_rows_list. cbn [collect device_rows].
  unfold dict_get_or. rewrite Hnet, Hups. cbn [iterate collect uplink_rows].
  unfold dict_get_or. rewrite Hi, Hs.
  replace (String.eqb (PyStr.lower s) "wan1" || String.eqb (PyStr.lower s) "wan2")
    with true by (destruct Hwan as [-> | ->]; reflexivity).
  reflexivity.
Qed.

(** The rows follow the order of the devices: the rows for two lists of
    devices put end to end are the rows of the first followed by the rows
    of the second. *)
Theorem build_rows_app (l1 l2 : list pyval) (r1 r2 : list (gmap string pyval)) :
  build_rows (Some (VList l1)) = inr r1 ->
  build_rows (Some (VList l2)) = inr r2 ->
  build_rows (Some (VList (l1 ++ l2))) = inr (r1 ++ r2)%list.
Proof. rewrite !build_rows_list. apply collect_app. Qed.

End ScriptFacts.

(** ** The executor, the table and the rows at concrete inputs *)

Import Script.

Lemma invoke_meraki_returns_only_2xx_witness :
  let net := scripted [Answered (limited (Some "3")); Answered (limited (Some "3"))]
                      (Answered ok_empty_list) in
  exists rq r,
    request_of sample_builtins "k" "get" (BASE_URL ++ uplinks_uri) None = Some rq
    /\ net (3 - 1)%nat rq = Answered r
    /\ 200 <= status_code r < 300
    /\ ((content r = "" /\ Some (VList []) = None)
        \/ (content r <> "" /\ exists j, json r = Decoded j /\ Some (VList []) = Some j)).
Proof.
  apply (invoke_meraki_returns_only_2xx
           sample_builtins "k"
           (scripted [Answered (limited (Some "3")); Answered (limited (Some "3"))]
                     (Answered ok_empty_list))
           "get" uplinks_uri None (Some (VList []))
           [Sent get_uplinks;
            Printed "Rate limit hit (429). Retrying in 3 seconds..."; Slept 3;
            Sent get_uplinks;
            Printed "Rate limit hit (429). Retrying in 3 seconds..."; Slept 3;
            Sent get_uplinks]).
  reflexivity.
Defined.

Lemma invoke_meraki_raises_no_requests_exception_witness :
  let e := PyException ("An error occurred during the request to " ++ uplinks_url
                        ++ ": HTTP 404 at " ++ uplinks_url ++ nl
                        ++ "{'errors': ['not found']}") in
  (forall msg, e <> HTTPError msg)
  /\ (forall msg, e <> RequestException msg)
  /\ (forall msg, e <> JSONDecodeError msg).
Proof.
  apply (invoke_meraki_raises_no_requests_exception
           sample_builtins "k"
           (scripted [] (Answered (mk_response 404 None not_found_body
                                                (Some not_found_json))))
           "GET" uplinks_uri None _ [Sent get_uplinks]).
  reflexivity.
Defined.

Lemma invoke_meraki_method_case_witness :
  invoke_meraki sample_builtins "k" (scripted [] (Answered ok_empty_list)) "Delete" uplinks_uri None
  = invoke_meraki sample_builtins "k" (scripted [] (Answered ok_empty_list))
                  "DELETE" uplinks_uri None.
Proof.
  apply (invoke_meraki_method_case
           sample_builtins "k" (scripted [] (Answered ok_empty_list))
           "Delete" "DELETE" uplinks_uri None).
  - reflexivity.
  - vm_compute. tauto.
Defined.

Lemma col_widths_exact_witness :
  (String.length "STATUSRAW" <= col_widths sample_rows !!! "statusRaw")%nat
  /\ (forall row, In row sample_rows ->
        (String.length (cell row "statusRaw") <= col_widths sample_rows !!! "statusRaw")%nat)
  /\ (col_widths sample_rows !!! "statusRaw" = String.length "STATUSRAW"
      \/ exists row, In row sample_rows
                     /\ col_widths sample_rows !!! "statusRaw"
                        = String.length (cell row "statusRaw")).
Proof.
  apply (col_widths_exact sample_rows "statusRaw" "STATUSRAW").
  vm_compute. tauto.
Defined.

Lemma table_lines_aligned_witness :
  exists cells,
    data_line (col_widths sample_rows)
              (make_row third_device (items_of (uplink_of "wan1" None)) "wan1" "unknown")
    = join "  " cells
    /\ map String.length cells
       = map (fun col => col_widths sample_rows !!! col.1) columns
    /\ String.length
         (data_line (col_widths sample_rows)
            (make_row third_device (items_of (uplink_of "wan1" None)) "wan1" "unknown"))
       = (list_sum (map (fun col => col_widths sample_rows !!! col.1) columns) + 12)%nat.
Proof.
  apply (table_lines_aligned sample_rows
           (data_line (col_widths sample_rows)
              (make_row third_device (items_of (uplink_of "wan1" None)) "wan1" "unknown"))).
  right; right; right; right; left. reflexivity.
Defined.

Lemma build_rows_row_witness :
  let row := ready_row in
  row !! "organizationId" = Some (VInt ORG_ID)
  /\ row !! "networkId" = Some (VStr NETWORK_ID)
  /\ (row !! "interface" = Some (VStr "WAN1") \/ row !! "interface" = Some (VStr "WAN2"))
  /\ (exists st, row !! "statusRaw" = Some (VStr st)
                 /\ row !! "statusInternet" = Some (VStr (classify_status st)))
  /\ (forall key header, In (key, header) columns -> is_Some (row !! key)).
Proof.
  apply (ScriptFacts.build_rows_row (Some (VList sample_devices)) sample_rows ready_row).
  - reflexivity.
  - right; left. reflexivity.
Defined.

Lemma other_networks_are_ignored_witness :
  build_rows (Some (VList sample_devices))
  = build_rows (Some (VList (List.filter of_network sample_devices))).
Proof.
  apply (ScriptFacts.other_networks_are_ignored sample_devices).
  intros x [<-|[<-|[<-|[]]]]; eexists; reflexivity.
Defined.

Lemma non_string_status_fails_witness :
  exists e,
    build_rows
      (Some (VList [device_of "N_1" "Q2AA-0002" VNone;
                    device_of NETWORK_ID "Q2AA-0004"
                      (VList [uplink_of "Wan1" (Some VNone)])]))
    = inl e.
Proof.
  apply (ScriptFacts.non_string_status_fails
           _ [uplink_of "Wan1" (Some VNone)]
           (items_of (device_of NETWORK_ID "Q2AA-0004"
                        (VList [uplink_of "Wan1" (Some VNone)])))
           (items_of (uplink_of "Wan1" (Some VNone))) "Wan1" VNone).
  - right; left. reflexivity.
  - reflexivity.
  - reflexivity.
  - left. reflexivity.
  - reflexivity.
  - left. reflexivity.
  - reflexivity.
  - discriminate.
Defined.

Lemma missing_status_is_unknown_witness :
  exists row,
    build_rows (Some (VList [VDict third_device])) = inr [row]
    /\ row !! "statusRaw" = Some (VStr "unknown")
    /\ row !! "statusInternet" = Some (VStr "FALHA").
Proof.
  apply (ScriptFacts.missing_status_is_unknown
           third_device (items_of (uplink_of "wan1" None)) "wan1").
  - reflexivity.
  - reflexivity.
  - reflexivity.
  - left. reflexivity.
  - reflexivity.
Defined.

Lemma build_rows_app_witness :
  build_rows (Some (VList ([VDict first_device]
                           ++ [device_of "N_1" "Q2AA-0002" VNone; VDict third_device])))
  = inr (first_rows ++ third_rows)%list.
Proof.
  apply (ScriptFacts.build_rows_app
           [VDict first_device]
           [device_of "N_1" "Q2AA-0002" VNone; VDict third_device]
           first_rows third_rows).
  - reflexivity.
  - reflexivity.
Defined.

(** The table of the sample rows, line by line. *)
Example sample_table :
  table_lines sample_rows =
  [ "SERIAL     INTERFACE  STATUSINTERNET  STATUSRAW  PUBLICIP     IPLOCAL   LASTREPORTEDAT      ";
    "---------  ---------  --------------  ---------  -----------  --------  --------------------";
    "Q2AA-0001  WAN1       ATIVA           active     203.0.113.7  10.0.0.2  2024-05-01T10:00:00Z";
    "Q2AA-0001  WAN2       PRONTA          Ready      203.0.113.7  10.0.0.2  2024-05-01T10:00:00Z";
    "Q2AA-0003  WAN1       FALHA           unknown    203.0.113.7  10.0.0.2  2024-05-01T10:00:00Z" ].
Proof. vm_compute. reflexivity. Qed.
